(** * augments-mcp-server: the MCP web server and the refresh coordinator

    A shallow embedding of [src/augments_mcp/mcp_web_server.py] (module
    [McpWebServer]) and of the documentation cache's refresh coordinator
    (module [Coordinator]), followed by the properties of the
    specification stated and proved over them (modules
    [McpWebServerFacts] and [CoordinatorFacts]). *)

From Stdlib Require Import ZArith Lia.
From stdpp Require Import gmap strings list fin_maps.

Set Warnings "-register-all,-clear-no-such-hyp".

(* ===================================================================== *)
(** * Python values, exceptions and the effect monad                      *)
(* ===================================================================== *)

Module McpWebServer.

(** A Python value as [json.loads] produces it and as the handlers return
    it: [None], [bool], [int], [float] (kept as its literal), [str],
    [list] and [dict] with string keys.  A dict is an association list in
    insertion order; a lookup finds the first binding of the key. *)
Inductive pyval : Type :=
| PyNone
| PyBool (b : bool)
| PyInt (n : Z)
| PyFloat (literal : string)
| PyStr (s : string)
| PyList (items : list pyval)
| PyDict (items : list (string * pyval)).

Definition pydict := list (string * pyval).

Fixpoint dict_get (d : pydict) (k : string) : option pyval :=
  match d with
  | [] => None
  | (k', v) :: d' => if String.eqb k' k then Some v else dict_get d' k
  end.

(** [k in d] *)
Definition dict_mem (d : pydict) (k : string) : bool :=
  match dict_get d k with Some _ => true | None => false end.

Definition dict_keys (d : pydict) : list string := map fst d.

(** [type(v).__name__] *)
Definition type_name (v : pyval) : string :=
  match v with
  | PyNone => "NoneType"
  | PyBool _ => "bool"
  | PyInt _ => "int"
  | PyFloat _ => "float"
  | PyStr _ => "str"
  | PyList _ => "list"
  | PyDict _ => "dict"
  end.

(** An instance of Python's [Exception]: its class and [str(e)]. *)
Record exn : Type := Exn { exn_class : string; exn_str : string }.

(** The instances of [BaseException] that are no [Exception]:
    [asyncio.CancelledError], which cancelling the task raises at the
    [await] it is suspended in, [KeyboardInterrupt] and [SystemExit]. *)
Inductive signal : Type := CancelledError | KeyboardInterrupt | SystemExit.

(** What a [raise] carries: an [except Exception] clause catches [Exc]
    and lets [Sig] through. *)
Inductive raised : Type :=
| Exc (e : exn)
| Sig (b : signal).

Definition ValueError (msg : string) : exn := Exn "ValueError" msg.

(** [str(KeyError(k))] is the repr of the key. *)
Definition KeyError (k : string) : exn := Exn "KeyError" ("'" +:+ k +:+ "'").

(** [v.get] where [v] is not a dict. *)
Definition AttributeError_get (v : pyval) : exn :=
  Exn "AttributeError" ("'" +:+ type_name v +:+ "' object has no attribute 'get'").

(** [v[k]] with a string key where [v] is not a dict. *)
Definition TypeError_subscript (v : pyval) : exn :=
  Exn "TypeError"
    match v with
    | PyStr _ => "string indices must be integers, not 'str'"
    | PyList _ => "list indices must be integers or slices, not str"
    | _ => "'" +:+ type_name v +:+ "' object is not subscriptable"
    end.

Definition result (A : Type) : Type := exn + A.

(** [v[k]] *)
Definition py_getitem (v : pyval) (k : string) : result pyval :=
  match v with
  | PyDict d =>
      match dict_get d k with
      | Some x => inr x
      | None => inl (KeyError k)
      end
  | _ => inl (TypeError_subscript v)
  end.

(** [v.get(k, default)] *)
Definition py_get (v : pyval) (k : string) (default : pyval) : result pyval :=
  match v with
  | PyDict d =>
      match dict_get d k with
      | Some x => inr x
      | None => inr default
      end
  | _ => inl (AttributeError_get v)
  end.

(** [v == s] for a string literal [s]. *)
Definition py_eq_str (v : pyval) (s : string) : bool :=
  match v with
  | PyStr s' => String.eqb s' s
  | _ => false
  end.

(* ===================================================================== *)
(** * Collaborators                                                       *)
(* ===================================================================== *)

(** The objects the server creates; each records the arguments of its
    constructor. *)
Record RedisClient : Type := from_url {
  url : string;
  encoding : string;
  decode_responses : bool;
  socket_timeout : Z;
  socket_connect_timeout : Z
}.

Inductive FrameworkRegistryManager : Type := FrameworkRegistryManager_new.

Record DocumentationCache : Type := DocumentationCache_new {
  cache_redis_client : option RedisClient
}.

Record GitHubProvider : Type := GitHubProvider_new {
  github_token : option string
}.

Inductive WebsiteProvider : Type := WebsiteProvider_new.

(** The module's global instances. *)
Record Globals : Type := mkGlobals {
  redis_client : option RedisClient;
  registry_manager : option FrameworkRegistryManager;
  doc_cache : option DocumentationCache;
  github_provider : option GitHubProvider;
  website_provider : option WebsiteProvider
}.

(** Their values when the module is loaded. *)
Definition initial_globals : Globals := mkGlobals None None None None None.

(** A call of one of the tool implementations, with its keyword
    arguments in the order the dispatcher evaluates them. *)
Inductive tool_call : Type :=
| list_available_frameworks
    (registry : option FrameworkRegistryManager) (category : pyval)
| search_frameworks
    (registry : option FrameworkRegistryManager) (query : pyval)
| get_framework_info
    (registry : option FrameworkRegistryManager) (framework : pyval)
| get_framework_docs
    (registry : option FrameworkRegistryManager)
    (cache : option DocumentationCache)
    (github : option GitHubProvider) (website : option WebsiteProvider)
    (framework section use_cache : pyval)
| get_framework_examples
    (registry : option FrameworkRegistryManager)
    (cache : option DocumentationCache)
    (github : option GitHubProvider) (website : option WebsiteProvider)
    (framework pattern : pyval)
| search_documentation
    (cache : option DocumentationCache) (framework query limit : pyval)
| get_framework_context
    (registry : option FrameworkRegistryManager)
    (cache : option DocumentationCache)
    (github : option GitHubProvider) (website : option WebsiteProvider)
    (frameworks task_description : pyval)
| analyze_code_compatibility
    (registry : option FrameworkRegistryManager) (code frameworks : pyval)
| check_framework_updates
    (registry : option FrameworkRegistryManager)
    (cache : option DocumentationCache) (framework : pyval)
| refresh_framework_cache
    (registry : option FrameworkRegistryManager)
    (cache : option DocumentationCache)
    (github : option GitHubProvider) (website : option WebsiteProvider)
    (framework force : pyval)
| get_cache_statistics (cache : option DocumentationCache)
| get_registry_stats (registry : option FrameworkRegistryManager).

Inductive log_level : Type := INFO | WARNING | ERROR.

(** What the server does to the outside, in order. *)
Inductive event : Type :=
| Log (level : log_level) (msg : string)
| RedisConnect (c : RedisClient)
| RedisPing (c : RedisClient)
| RedisClose (c : RedisClient)
| NewFrameworkRegistryManager (r : FrameworkRegistryManager)
| RegistryInitialize (r : FrameworkRegistryManager)
| NewDocumentationCache (c : DocumentationCache)
| NewGitHubProvider (p : GitHubProvider)
| NewWebsiteProvider (p : WebsiteProvider)
| ToolCall (tc : tool_call).

(** How the outside answers: the process environment, the Redis server,
    the registry catalog, the constructors of the collaborators, the tool
    implementations and the [json] module.  The calls of the startup
    and of the shutdown answer with [None] or with the [Exception] they
    raise; a tool, which a request awaits, may also raise what is no
    [Exception]. *)
Record World : Type := mkWorld {
  getenv : string -> option string;
  redis_connect : RedisClient -> option exn;
  redis_ping : RedisClient -> option exn;
  redis_close : RedisClient -> option exn;
  registry_init : FrameworkRegistryManager -> option exn;
  registry_initialize : FrameworkRegistryManager -> option exn;
  cache_init : DocumentationCache -> option exn;
  github_init : GitHubProvider -> option exn;
  website_init : WebsiteProvider -> option exn;
  (** an awaited tool returns, raises an [Exception], or is cut short by
      a [BaseException] that is none *)
  run_tool : tool_call -> raised + pyval;
  json_loads : string -> result pyval;
  json_dumps : pyval -> string;
  (** [str(v)] of a value that is not a [str] *)
  py_str_other : pyval -> string;
  (** [str(e)] of pydantic's [ValidationError] for an input *)
  validation_error_str : pydict -> string
}.

(* ===================================================================== *)
(** * The state and exception monad                                       *)
(* ===================================================================== *)

Record State : Type := mkState {
  globals : Globals;
  trace : list event
}.

Definition M (A : Type) : Type := State -> (raised + A) * State.

Definition ret {A} (a : A) : M A := fun s => (inr a, s).

Definition bind {A B} (m : M A) (f : A -> M B) : M B :=
  fun s =>
    match m s with
    | (inr a, s') => f a s'
    | (inl e, s') => (inl e, s')
    end.

Definition raise {A} (e : exn) : M A := fun s => (inl (Exc e), s).

(** [try: body except Exception as e: handler e]; what the body did to
    the state before it raised stays done, and what is raised and is no
    [Exception] passes the clause. *)
Definition try_except {A} (body : M A) (handler : exn -> M A) : M A :=
  fun s =>
    match body s with
    | (inr a, s') => (inr a, s')
    | (inl (Exc e), s') => handler e s'
    | (inl (Sig b), s') => (inl (Sig b), s')
    end.

(** An expression that returns or raises an [Exception]. *)
Definition lift {A} (r : result A) : M A :=
  fun s =>
    match r with
    | inr a => (inr a, s)
    | inl e => (inl (Exc e), s)
    end.

(** [await] of a coroutine of the outside. *)
Definition await {A} (r : raised + A) : M A := fun s => (r, s).

Definition emit (ev : event) : M unit :=
  fun s => (inr tt, mkState (globals s) (trace s ++ [ev])).

Definition get_globals : M Globals := fun s => (inr (globals s), s).

Definition modify_globals (f : Globals -> Globals) : M unit :=
  fun s => (inr tt, mkState (f (globals s)) (trace s)).

(** An outside call that returns nothing: recorded, then [None] or the
    exception the world answers. *)
Definition perform (ev : event) (answer : option exn) : M unit :=
  fun s =>
    let s' := mkState (globals s) (trace s ++ [ev]) in
    match answer with
    | None => (inr tt, s')
    | Some e => (inl (Exc e), s')
    end.

Declare Scope py_scope.
Delimit Scope py_scope with py.
Notation "x <- m ;; k" := (bind m (fun x => k))
  (at level 100, m at next level, right associativity) : py_scope.
Notation "m ;; k" := (bind m (fun _ => k))
  (at level 100, right associativity) : py_scope.
Local Open Scope py_scope.

Definition logger_info (msg : string) : M unit := emit (Log INFO msg).
Definition logger_warning (msg : string) : M unit := emit (Log WARNING msg).
Definition logger_error (msg : string) : M unit := emit (Log ERROR msg).

(* ===================================================================== *)
(** * Protocol models and constants                                       *)
(* ===================================================================== *)

Record JsonRpcRequest : Type := mkRequest {
  req_jsonrpc : string;
  req_id : pyval;
  req_method : string;
  req_params : option pydict
}.

Record JsonRpcResponse : Type := mkResponse {
  resp_jsonrpc : string;
  resp_id : pyval;
  resp_result : pyval;
  resp_error : option pydict
}.

(** [JsonRpcResponse(id=.., result=.., error=..)] with the field
    defaults [jsonrpc="2.0"], [id=None], [result=None], [error=None]. *)
Definition JsonRpcResponse_new (id result : pyval) (error : option pydict)
  : JsonRpcResponse :=
  mkResponse "2.0" id result error.

Definition SERVER_INFO : pyval :=
  PyDict [("name", PyStr "augments-mcp-server"); ("version", PyStr "2.0.0")].

Definition CAPABILITIES : pyval :=
  PyDict [("tools", PyDict []); ("completion", PyDict [])].

(** One property of an input schema. *)
Definition prop (ty description : string) : pyval :=
  PyDict [("type", PyStr ty); ("description", PyStr description)].

Definition prop_default (ty description : string) (default : pyval) : pyval :=
  PyDict [("type", PyStr ty); ("description", PyStr description);
          ("default", default)].

Definition prop_array (description : string) : pyval :=
  PyDict [("type", PyStr "array");
          ("items", PyDict [("type", PyStr "string")]);
          ("description", PyStr description)].

Definition schema (properties : pydict) : pyval :=
  PyDict [("type", PyStr "object"); ("properties", PyDict properties)].

Definition schema_required (properties : pydict) (required : list string)
  : pyval :=
  PyDict [("type", PyStr "object"); ("properties", PyDict properties);
          ("required", PyList (map PyStr required))].

Definition tool (name description : string) (inputSchema : pyval) : pyval :=
  PyDict [("name", PyStr name); ("description", PyStr description);
          ("inputSchema", inputSchema)].

Definition TOOLS : pyval :=
  PyList [
    tool "list_available_frameworks"
      "List all available frameworks, optionally filtered by category"
      (schema [("category", prop "string"
         "Filter by category (web, backend, mobile, ai-ml, design, tools)")]);
    tool "search_frameworks"
      "Search for frameworks by name, keyword, or feature"
      (schema_required [("query", prop "string"
         "Search term to match against framework names and features")]
         ["query"]);
    tool "get_framework_info"
      "Get detailed information about a specific framework"
      (schema_required [("framework", prop "string" "Framework name")]
         ["framework"]);
    tool "get_framework_docs"
      "Retrieve comprehensive documentation for a specific framework"
      (schema_required
         [("framework", prop "string"
             "Framework name (e.g., 'react', 'tailwind', 'laravel')");
          ("section", prop "string" "Specific documentation section");
          ("use_cache", prop_default "boolean"
             "Whether to use cached content (default: true)" (PyBool true))]
         ["framework"]);
    tool "get_framework_examples"
      "Get code examples for specific patterns within a framework"
      (schema_required
         [("framework", prop "string" "Framework name");
          ("pattern", prop "string"
             "Specific pattern (e.g., 'components', 'routing', 'authentication')")]
         ["framework"]);
    tool "search_documentation"
      "Search within a framework's cached documentation"
      (schema_required
         [("framework", prop "string" "Framework name to search within");
          ("query", prop "string" "Search query");
          ("limit", prop_default "integer"
             "Maximum number of results (default: 10)" (PyInt 10))]
         ["framework"; "query"]);
    tool "get_framework_context"
      "Get relevant context for multiple frameworks based on the development task"
      (schema_required
         [("frameworks", prop_array "List of framework names being used");
          ("task_description", prop "string"
             "Description of what you're trying to build")]
         ["frameworks"; "task_description"]);
    tool "analyze_code_compatibility"
      "Analyze code for framework compatibility and suggest improvements"
      (schema_required
         [("code", prop "string" "Code snippet to analyze");
          ("frameworks", prop_array
             "List of frameworks the code should work with")]
         ["code"; "frameworks"]);
    tool "check_framework_updates"
      "Check if framework documentation has been updated since last cache"
      (schema_required
         [("framework", prop "string" "Framework name to check")]
         ["framework"]);
    tool "refresh_framework_cache"
      "Refresh cached documentation for frameworks"
      (schema
         [("framework", prop "string"
             "Specific framework to refresh, or None for all");
          ("force", prop_default "boolean"
             "Force refresh even if cache is still valid" (PyBool false))]);
    tool "get_cache_stats"
      "Get detailed cache statistics and performance metrics"
      (schema []);
    tool "get_registry_stats"
      "Get statistics about the framework registry"
      (schema [])
  ].

Definition DEFAULT_REDIS_URL : string := "redis://localhost:6379/0".

(** Line feed, and the blank line that ends a server-sent event. *)
Definition LF : string := String (Ascii.ascii_of_nat 10) EmptyString.
Definition LFLF : string := LF +:+ LF.

(** [model.model_dump(exclude_none=..)]: the fields in declaration
    order, without the [None] ones when asked. *)
Definition model_dump (exclude_none : bool) (r : JsonRpcResponse) : pyval :=
  let fields :=
    [("jsonrpc", PyStr (resp_jsonrpc r));
     ("id", resp_id r);
     ("result", resp_result r);
     ("error", match resp_error r with
               | Some d => PyDict d
               | None => PyNone
               end)] in
  PyDict (List.filter (fun kv => match kv.2 with
                                 | PyNone => negb exclude_none
                                 | _ => true
                                 end) fields).

Definition set_redis_client (v : option RedisClient) (g : Globals) : Globals :=
  mkGlobals v (registry_manager g) (doc_cache g) (github_provider g)
    (website_provider g).
Definition set_registry_manager (v : option FrameworkRegistryManager)
  (g : Globals) : Globals :=
  mkGlobals (redis_client g) v (doc_cache g) (github_provider g)
    (website_provider g).
Definition set_doc_cache (v : option DocumentationCache) (g : Globals)
  : Globals :=
  mkGlobals (redis_client g) (registry_manager g) v (github_provider g)
    (website_provider g).
Definition set_github_provider (v : option GitHubProvider) (g : Globals)
  : Globals :=
  mkGlobals (redis_client g) (registry_manager g) (doc_cache g) v
    (website_provider g).
Definition set_website_provider (v : option WebsiteProvider) (g : Globals)
  : Globals :=
  mkGlobals (redis_client g) (registry_manager g) (doc_cache g)
    (github_provider g) v.

(** The request model built from the keyword arguments [data] unpacks
    to: [data] must be a mapping; pydantic then
    takes [jsonrpc] (a str, default ["2.0"]), [id] (anything, default
    [None]), [method] (a str, required) and [params] ([None] or a dict,
    default [None]) and ignores every other key. *)
Definition field_str_default (d : pydict) (k dflt : string) : option string :=
  match dict_get d k with
  | None => Some dflt
  | Some (PyStr s) => Some s
  | Some _ => None
  end.

Definition field_str_required (d : pydict) (k : string) : option string :=
  match dict_get d k with
  | Some (PyStr s) => Some s
  | _ => None
  end.

Definition field_optional_dict (d : pydict) (k : string)
  : option (option pydict) :=
  match dict_get d k with
  | None | Some PyNone => Some None
  | Some (PyDict p) => Some (Some p)
  | Some _ => None
  end.

(* ===================================================================== *)
(** * The server                                                          *)
(* ===================================================================== *)

Section Server.

Variable W : World.

(** [str(v)], as an f-string formats [v]. *)
Definition py_str (v : pyval) : string :=
  match v with
  | PyStr s => s
  | _ => py_str_other W v
  end.

Definition JsonRpcRequest_new (data : pyval) : result JsonRpcRequest :=
  match data with
  | PyDict d =>
      match field_str_default d "jsonrpc" "2.0",
            field_str_required d "method",
            field_optional_dict d "params" with
      | Some jsonrpc, Some method, Some params =>
          inr (mkRequest jsonrpc (default PyNone (dict_get d "id"))
                 method params)
      | _, _, _ => inl (Exn "ValidationError" (validation_error_str W d))
      end
  | _ =>
      inl (Exn "TypeError"
             ("augments_mcp.mcp_web_server.JsonRpcRequest() argument after "
              +:+ "** must be a mapping, not " +:+ type_name data))
  end.

(** Get Redis URL from environment or default *)
Definition get_redis_url : string :=
  default DEFAULT_REDIS_URL (getenv W "REDIS_URL").

(** [lifespan] up to its [yield]. *)
Definition lifespan_startup : M unit :=
  logger_info "Starting MCP Web Server" ;;
  try_except
    ((* Initialize Redis *)
     let redis_url := get_redis_url in
     (if negb (String.eqb redis_url "redis://localhost:6379/0") then
        try_except
          (let c := from_url redis_url "utf-8" true 5 5 in
           perform (RedisConnect c) (redis_connect W c) ;;
           modify_globals (set_redis_client (Some c)) ;;
           perform (RedisPing c) (redis_ping W c) ;;
           logger_info "Connected to Redis")
          (fun e =>
             logger_warning ("Could not connect to Redis: " +:+ exn_str e
                             +:+ ", continuing without Redis") ;;
             modify_globals (set_redis_client None))
      else ret tt) ;;
     (* Initialize registry and providers *)
     let r := FrameworkRegistryManager_new in
     perform (NewFrameworkRegistryManager r) (registry_init W r) ;;
     modify_globals (set_registry_manager (Some r)) ;;
     perform (RegistryInitialize r) (registry_initialize W r) ;;
     g <- get_globals ;;
     let c := DocumentationCache_new (redis_client g) in
     perform (NewDocumentationCache c) (cache_init W c) ;;
     modify_globals (set_doc_cache (Some c)) ;;
     let github_token := getenv W "GITHUB_TOKEN" in
     let p := GitHubProvider_new github_token in
     perform (NewGitHubProvider p) (github_init W p) ;;
     modify_globals (set_github_provider (Some p)) ;;
     let w := WebsiteProvider_new in
     perform (NewWebsiteProvider w) (website_init W w) ;;
     modify_globals (set_website_provider (Some w)) ;;
     logger_info "MCP Web Server initialized successfully")
    (fun e =>
       logger_error ("Failed to initialize server: " +:+ exn_str e) ;;
       raise e).

(** [lifespan] after its [yield]. *)
Definition lifespan_shutdown : M unit :=
  logger_info "Shutting down MCP Web Server" ;;
  g <- get_globals ;;
  match redis_client g with
  | Some c => perform (RedisClose c) (redis_close W c)
  | None => ret tt
  end.

(** Manage application lifecycle: [serving] is what the application does
    while the context manager is suspended at [yield]. *)
Definition lifespan (serving : M unit) : M unit :=
  lifespan_startup ;;
  serving ;;
  lifespan_shutdown.

Definition handler : Type := option pydict -> M pyval.

(** Handle MCP initialization *)
Definition handle_initialize : handler := fun params =>
  ret (PyDict [("protocolVersion", PyStr "0.1.0");
               ("serverInfo", SERVER_INFO);
               ("capabilities", CAPABILITIES)]).

(** Handle initialization confirmation *)
Definition handle_initialized : handler := fun params =>
  logger_info "Client initialized" ;;
  ret PyNone.

(** List available tools *)
Definition handle_tools_list : handler := fun params =>
  ret (PyDict [("tools", TOOLS)]).

(** An awaited tool implementation: the call is recorded and the world
    answers with its return value or with what it raises. *)
Definition call_tool (tc : tool_call) : M pyval :=
  emit (ToolCall tc) ;;
  await (run_tool W tc).

(** [not params] for [params : Optional[Dict[str, Any]]] *)
Definition params_falsy (params : option pydict) : bool :=
  match params with
  | None | Some [] => true
  | Some _ => false
  end.

(** Execute a tool *)
Definition handle_tools_call : handler := fun params =>
  if params_falsy params || negb (dict_mem (default [] params) "name") then
    raise (ValueError "Tool name is required")
  else
    let params := default [] params in
    tool_name <- lift (py_getitem (PyDict params) "name") ;;
    let tool_params := default (PyDict []) (dict_get params "arguments") in
    g <- get_globals ;;
    let registry_manager := registry_manager g in
    let doc_cache := doc_cache g in
    let github_provider := github_provider g in
    let website_provider := website_provider g in
    (* Map tool names to implementation functions *)
    if py_eq_str tool_name "list_available_frameworks" then
      category <- lift (py_get tool_params "category" PyNone) ;;
      call_tool (list_available_frameworks registry_manager category)
    else if py_eq_str tool_name "search_frameworks" then
      query <- lift (py_getitem tool_params "query") ;;
      call_tool (search_frameworks registry_manager query)
    else if py_eq_str tool_name "get_framework_info" then
      framework <- lift (py_getitem tool_params "framework") ;;
      call_tool (get_framework_info registry_manager framework)
    else if py_eq_str tool_name "get_framework_docs" then
      framework <- lift (py_getitem tool_params "framework") ;;
      section <- lift (py_get tool_params "section" PyNone) ;;
      use_cache <- lift (py_get tool_params "use_cache" (PyBool true)) ;;
      call_tool (get_framework_docs registry_manager doc_cache
                   github_provider website_provider
                   framework section use_cache)
    else if py_eq_str tool_name "get_framework_examples" then
      framework <- lift (py_getitem tool_params "framework") ;;
      pattern <- lift (py_get tool_params "pattern" PyNone) ;;
      call_tool (get_framework_examples registry_manager doc_cache
                   github_provider website_provider framework pattern)
    else if py_eq_str tool_name "search_documentation" then
      framework <- lift (py_getitem tool_params "framework") ;;
      query <- lift (py_getitem tool_params "query") ;;
      limit <- lift (py_get tool_params "limit" (PyInt 10)) ;;
      call_tool (search_documentation doc_cache framework query limit)
    else if py_eq_str tool_name "get_framework_context" then
      frameworks <- lift (py_getitem tool_params "frameworks") ;;
      task_description <- lift (py_getitem tool_params "task_description") ;;
      call_tool (get_framework_context registry_manager doc_cache
                   github_provider website_provider
                   frameworks task_description)
    else if py_eq_str tool_name "analyze_code_compatibility" then
      code <- lift (py_getitem tool_params "code") ;;
      frameworks <- lift (py_getitem tool_params "frameworks") ;;
      call_tool (analyze_code_compatibility registry_manager code frameworks)
    else if py_eq_str tool_name "check_framework_updates" then
      framework <- lift (py_getitem tool_params "framework") ;;
      call_tool (check_framework_updates registry_manager doc_cache framework)
    else if py_eq_str tool_name "refresh_framework_cache" then
      framework <- lift (py_get tool_params "framework" PyNone) ;;
      force <- lift (py_get tool_params "force" (PyBool false)) ;;
      call_tool (refresh_framework_cache registry_manager doc_cache
                   github_provider website_provider framework force)
    else if py_eq_str tool_name "get_cache_stats" then
      call_tool (get_cache_statistics doc_cache)
    else if py_eq_str tool_name "get_registry_stats" then
      call_tool (get_registry_stats registry_manager)
    else
      raise (ValueError ("Unknown tool: " +:+ py_str tool_name)).

(** Handle completion request *)
Definition handle_completion_complete : handler := fun params =>
  (* For now, return empty completions *)
  ret (PyDict [("completion", PyDict [("values", PyList [])])]).

(** Method handlers *)
Definition METHOD_HANDLERS : list (string * handler) :=
  [("initialize", handle_initialize);
   ("initialized", handle_initialized);
   ("tools/list", handle_tools_list);
   ("tools/call", handle_tools_call);
   ("completion/complete", handle_completion_complete)].

(** [METHOD_HANDLERS.get(method)] *)
Fixpoint handlers_get (hs : list (string * handler)) (method : string)
  : option handler :=
  match hs with
  | [] => None
  | (k, h) :: hs' => if String.eqb k method then Some h else handlers_get hs' method
  end.

Definition error_object (code : Z) (message : string) : pydict :=
  [("code", PyInt code); ("message", PyStr message)].

(** Process a JSON-RPC message *)
Definition process_message (message : JsonRpcRequest) : M JsonRpcResponse :=
  try_except
    (match handlers_get METHOD_HANDLERS (req_method message) with
     | None =>
         ret (JsonRpcResponse_new (req_id message) PyNone
                (Some (error_object (-32601)
                         ("Method not found: " +:+ req_method message))))
     | Some handler =>
         result <- handler (req_params message) ;;
         ret (JsonRpcResponse_new (req_id message) result None)
     end)
    (fun e =>
       logger_error ("Error processing message: " +:+ exn_str e) ;;
       ret (JsonRpcResponse_new (req_id message) PyNone
              (Some (error_object (-32603) (exn_str e))))).

(** One server-sent event carrying [response_data]. *)
Definition sse_data (response_data : pyval) : string :=
  "data: " +:+ json_dumps W response_data +:+ LFLF.

(** Generate Server-Sent Events: the list of the events yielded. *)
Definition sse_generator (request_body : string) : M (list string) :=
  try_except
    ((* Parse the incoming JSON-RPC request *)
     data <- lift (json_loads W request_body) ;;
     request <- lift (JsonRpcRequest_new data) ;;
     (* Process the message *)
     response <- process_message request ;;
     (* Send response as SSE *)
     let response_data := model_dump true response in
     ret [sse_data response_data])
    (fun e =>
       if String.eqb (exn_class e) "JSONDecodeError" then
         let error_response :=
           JsonRpcResponse_new PyNone PyNone
             (Some (error_object (-32700) ("Parse error: " +:+ exn_str e))) in
         ret [sse_data (model_dump false error_response)]
       else
         let error_response :=
           JsonRpcResponse_new PyNone PyNone
             (Some (error_object (-32603) ("Internal error: " +:+ exn_str e))) in
         ret [sse_data (model_dump false error_response)]).

End Server.

(* ===================================================================== *)
(** * What the properties are stated with                                 *)
(* ===================================================================== *)

Section Observations.

Variable W : World.

(** The names the dispatcher knows. *)
Definition TOOL_NAMES : list string :=
  ["list_available_frameworks"; "search_frameworks"; "get_framework_info";
   "get_framework_docs"; "get_framework_examples"; "search_documentation";
   "get_framework_context"; "analyze_code_compatibility";
   "check_framework_updates"; "refresh_framework_cache"; "get_cache_stats";
   "get_registry_stats"].

Definition METHOD_NAMES : list string :=
  ["initialize"; "initialized"; "tools/list"; "tools/call";
   "completion/complete"].

Definition is_tool_name (v : pyval) : bool :=
  existsb (py_eq_str v) TOOL_NAMES.

(** The state after [ev] was recorded. *)
Definition record (ev : event) (s : State) : State :=
  mkState (globals s) (trace s ++ [ev]).

Definition error_response (id : pyval) (code : Z) (message : string)
  : JsonRpcResponse :=
  mkResponse "2.0" id PyNone (Some (error_object code message)).

(** The arguments of a tool call: [params.get("arguments", {})]. *)
Definition tool_arguments (p : pydict) : pyval :=
  default (PyDict []) (dict_get p "arguments").

Definition is_redis_event (ev : event) : bool :=
  match ev with
  | RedisConnect _ | RedisPing _ | RedisClose _ => true
  | _ => false
  end.

(** The first exception among the answers of a sequence of calls. *)
Fixpoint first_failure (answers : list (option exn)) : option exn :=
  match answers with
  | [] => None
  | Some e :: _ => Some e
  | None :: rest => first_failure rest
  end.

Definition outcome (failure : option exn) : raised + unit :=
  match failure with
  | Some e => inl (Exc e)
  | None => inr tt
  end.

(** The two halves of the body of [lifespan]'s [try]. *)
Definition init_redis : M unit :=
  let redis_url := get_redis_url W in
  if negb (String.eqb redis_url "redis://localhost:6379/0") then
    try_except
      (let c := from_url redis_url "utf-8" true 5 5 in
       perform (RedisConnect c) (redis_connect W c) ;;
       modify_globals (set_redis_client (Some c)) ;;
       perform (RedisPing c) (redis_ping W c) ;;
       logger_info "Connected to Redis")
      (fun e =>
         logger_warning ("Could not connect to Redis: " +:+ exn_str e
                         +:+ ", continuing without Redis") ;;
         modify_globals (set_redis_client None))
  else ret tt.

Definition init_registry_and_providers : M unit :=
  let r := FrameworkRegistryManager_new in
  perform (NewFrameworkRegistryManager r) (registry_init W r) ;;
  modify_globals (set_registry_manager (Some r)) ;;
  perform (RegistryInitialize r) (registry_initialize W r) ;;
  g <- get_globals ;;
  let c := DocumentationCache_new (redis_client g) in
  perform (NewDocumentationCache c) (cache_init W c) ;;
  modify_globals (set_doc_cache (Some c)) ;;
  let github_token := getenv W "GITHUB_TOKEN" in
  let p := GitHubProvider_new github_token in
  perform (NewGitHubProvider p) (github_init W p) ;;
  modify_globals (set_github_provider (Some p)) ;;
  let w := WebsiteProvider_new in
  perform (NewWebsiteProvider w) (website_init W w) ;;
  modify_globals (set_website_provider (Some w)) ;;
  logger_info "MCP Web Server initialized successfully".

Definition startup_failed (e : exn) : M unit :=
  logger_error ("Failed to initialize server: " +:+ exn_str e) ;;
  raise e.

(** The answers that decide the second half, for the cache built over
    the Redis client [rc]. *)
Definition later_answers (rc : option RedisClient) : list (option exn) :=
  [registry_init W FrameworkRegistryManager_new;
   registry_initialize W FrameworkRegistryManager_new;
   cache_init W (DocumentationCache_new rc);
   github_init W (GitHubProvider_new (getenv W "GITHUB_TOKEN"));
   website_init W WebsiteProvider_new].

(** The world leaves Redis at its default: [REDIS_URL] is unset or is
    the default URL. *)
Definition redis_url_is_default : Prop :=
  getenv W "REDIS_URL" = None \/
  getenv W "REDIS_URL" = Some "redis://localhost:6379/0".

(** The Redis server does not answer the client [c]: connecting to it
    raises [e], or the connection is made and the ping raises [e]. *)
Definition redis_unreachable (c : RedisClient) (e : exn) : Prop :=
  redis_connect W c = Some e \/
  (redis_connect W c = None /\ redis_ping W c = Some e).

Definition redis_warning (e : exn) : event :=
  Log WARNING ("Could not connect to Redis: " +:+ exn_str e
               +:+ ", continuing without Redis").

End Observations.

(* ===================================================================== *)
(** * Concrete worlds                                                     *)
(* ===================================================================== *)

(** A world given by its environment, the answer of the Redis server to
    a connection, the answer of the registry catalog, the tools and the
    JSON parser; everything else succeeds. *)
Definition world (env : string -> option string) (redis registry : option exn)
    (tools : tool_call -> raised + pyval) (loads : string -> result pyval)
  : World :=
  mkWorld env (fun _ => redis) (fun _ => None) (fun _ => None)
    (fun _ => None) (fun _ => registry) (fun _ => None) (fun _ => None)
    (fun _ => None) tools loads (fun _ => "") (fun _ => "") (fun _ => "").

Definition no_env : string -> option string := fun _ => None.

Definition redis_env (u : string) : string -> option string :=
  fun k => if String.eqb k "REDIS_URL" then Some u else None.

Definition connection_refused : exn :=
  Exn "ConnectionError" "Error 111 connecting to cache:6379. Connection refused.".

Definition catalog_empty : exn :=
  Exn "RegistryLoadError" "no frameworks in the catalog".

Definition fetch_failed : exn :=
  Exn "FetchError" "no cached content and the fetch failed".

Definition tools_fail : tool_call -> raised + pyval :=
  fun _ => inl (Exc fetch_failed).
Definition tools_ok : tool_call -> raised + pyval := fun _ => inr (PyDict []).
Definition loads_fails : string -> result pyval :=
  fun _ => inl (Exn "JSONDecodeError" "Expecting value").

(** The task is cancelled while it awaits a tool. *)
Definition tools_cancelled : tool_call -> raised + pyval :=
  fun _ => inl (Sig CancelledError).

Definition fresh_state : State := mkState initial_globals [].

Definition call_request (id : Z) (name : string) (arguments : pydict)
  : JsonRpcRequest :=
  mkRequest "2.0" (PyInt id) "tools/call"
    (Some [("name", PyStr name); ("arguments", PyDict arguments)]).

Definition initialized_request : pyval :=
  PyDict [("jsonrpc", PyStr "2.0"); ("id", PyInt 2);
          ("method", PyStr "initialized")].

Definition degraded_world : World :=
  world (redis_env "redis://cache:6379/0") (Some connection_refused) None
    tools_ok loads_fails.

Definition broken_catalog_world : World :=
  world no_env None (Some catalog_empty) tools_ok loads_fails.

Definition cancelled_world : World :=
  world no_env None None tools_cancelled loads_fails.

(* ===================================================================== *)
(** * Views of the tool table and of the tool calls                      *)
(* ===================================================================== *)

(** The entries of [TOOLS]. *)
Definition tool_entries : list pydict :=
  match TOOLS with
  | PyList items =>
      omap (fun t => match t with PyDict d => Some d | _ => None end) items
  | _ => []
  end.

Definition entry_name (d : pydict) : option string :=
  match dict_get d "name" with
  | Some (PyStr n) => Some n
  | _ => None
  end.

(** The names [tools/list] advertises, in order. *)
Definition advertised_names : list string := omap entry_name tool_entries.

Definition find_tool (name : string) : option pydict :=
  List.find (fun d => match entry_name d with
                      | Some n => String.eqb n name
                      | None => false
                      end) tool_entries.

(** [tool["inputSchema"]] of the advertised tool [name]. *)
Definition input_schema (name : string) : pydict :=
  match find_tool name ≫= (fun d => dict_get d "inputSchema") with
  | Some (PyDict sch) => sch
  | _ => []
  end.

(** [inputSchema["properties"]] *)
Definition declared_properties (name : string) : pydict :=
  match dict_get (input_schema name) "properties" with
  | Some (PyDict ps) => ps
  | _ => []
  end.

(** [inputSchema["required"]], empty when the schema has none. *)
Definition required_arguments (name : string) : list string :=
  match dict_get (input_schema name) "required" with
  | Some (PyList l) =>
      omap (fun v => match v with PyStr s => Some s | _ => None end) l
  | _ => []
  end.

(** The ["default"] the schema declares for the property [k], [None]
    when it declares none. *)
Definition declared_default (name k : string) : pyval :=
  match dict_get (declared_properties name) k with
  | Some (PyDict p) => default PyNone (dict_get p "default")
  | _ => PyNone
  end.

(** The keyword arguments of a tool call that come from the client's
    [arguments], under the keywords of the source. *)
Definition kwargs (tc : tool_call) : pydict :=
  match tc with
  | list_available_frameworks _ category => [("category", category)]
  | search_frameworks _ query => [("query", query)]
  | get_framework_info _ framework => [("framework", framework)]
  | get_framework_docs _ _ _ _ framework section use_cache =>
      [("framework", framework); ("section", section);
       ("use_cache", use_cache)]
  | get_framework_examples _ _ _ _ framework pattern =>
      [("framework", framework); ("pattern", pattern)]
  | search_documentation _ framework query limit =>
      [("framework", framework); ("query", query); ("limit", limit)]
  | get_framework_context _ _ _ _ frameworks task_description =>
      [("frameworks", frameworks); ("task_description", task_description)]
  | analyze_code_compatibility _ code frameworks =>
      [("code", code); ("frameworks", frameworks)]
  | check_framework_updates _ _ framework => [("framework", framework)]
  | refresh_framework_cache _ _ _ _ framework force =>
      [("framework", framework); ("force", force)]
  | get_cache_statistics _ => []
  | get_registry_stats _ => []
  end.

(** The keyword arguments of a tool call that are module globals are
    the globals [g]. *)
Definition passes_globals (g : Globals) (tc : tool_call) : Prop :=
  match tc with
  | list_available_frameworks r _ | search_frameworks r _
  | get_framework_info r _ | analyze_code_compatibility r _ _
  | get_registry_stats r =>
      r = registry_manager g
  | get_framework_docs r c gh w _ _ _ | get_framework_examples r c gh w _ _
  | get_framework_context r c gh w _ _
  | refresh_framework_cache r c gh w _ _ =>
      r = registry_manager g /\ c = doc_cache g /\
      gh = github_provider g /\ w = website_provider g
  | search_documentation c _ _ _ | get_cache_statistics c => c = doc_cache g
  | check_framework_updates r c _ =>
      r = registry_manager g /\ c = doc_cache g
  end.

(** The name under which the dispatcher reaches a tool call. *)
Definition tool_call_name (tc : tool_call) : string :=
  match tc with
  | list_available_frameworks _ _ => "list_available_frameworks"
  | search_frameworks _ _ => "search_frameworks"
  | get_framework_info _ _ => "get_framework_info"
  | get_framework_docs _ _ _ _ _ _ _ => "get_framework_docs"
  | get_framework_examples _ _ _ _ _ _ => "get_framework_examples"
  | search_documentation _ _ _ _ => "search_documentation"
  | get_framework_context _ _ _ _ _ _ => "get_framework_context"
  | analyze_code_compatibility _ _ _ => "analyze_code_compatibility"
  | check_framework_updates _ _ _ => "check_framework_updates"
  | refresh_framework_cache _ _ _ _ _ _ => "refresh_framework_cache"
  | get_cache_statistics _ => "get_cache_stats"
  | get_registry_stats _ => "get_registry_stats"
  end.

Definition is_tool_call (ev : event) : bool :=
  match ev with
  | ToolCall _ => true
  | _ => false
  end.

(** A response that carries a result. *)
Definition success_response (id result : pyval) : JsonRpcResponse :=
  mkResponse "2.0" id result None.

(** What [model_dump()] gives for the error responses of
    [sse_generator]: every field, [None] or not. *)
Definition sse_error_data (code : Z) (message : string) : pyval :=
  PyDict [("jsonrpc", PyStr "2.0"); ("id", PyNone); ("result", PyNone);
          ("error", PyDict (error_object code message))].

(** The first key of [keys] that [args] lacks. *)
Definition first_missing (args : pydict) (keys : list string) : option string :=
  List.find (fun k => negb (dict_mem args k)) keys.

(** A field that [exclude_none] keeps. *)
Definition not_none (v : pyval) : option pyval :=
  match v with
  | PyNone => None
  | _ => Some v
  end.

(** A tools/call request body. *)
Definition call_params (name : string) (arguments : pyval) : pydict :=
  [("name", PyStr name); ("arguments", arguments)].

Definition connected_world : World :=
  world (redis_env "redis://cache:6379/0") None None tools_ok loads_fails.

(** Redis answers and the registry catalog does not load. *)
Definition leaky_world : World :=
  world (redis_env "redis://cache:6379/0") None (Some catalog_empty)
    tools_ok loads_fails.

Definition cache_client : RedisClient :=
  from_url "redis://cache:6379/0" "utf-8" true 5 5.

(** The state an earlier run of [lifespan] leaves behind: the closed
    client is still in the global. *)
Definition restarted_state : State :=
  mkState (mkGlobals (Some cache_client) None None None None)
    [RedisClose cache_client].

(** The state of a server that is ready, without Redis. *)
Definition ready_state : State :=
  mkState
    (mkGlobals None (Some FrameworkRegistryManager_new)
       (Some (DocumentationCache_new None))
       (Some (GitHubProvider_new None)) (Some WebsiteProvider_new))
    [].

(** A body that is JSON but no request: it has an id and no method. *)
Definition no_method_request : pyval := PyDict [("id", PyInt 5)].

Definition loads_to (data : pyval) : string -> result pyval :=
  fun _ => inr data.

(** A [tools/call] request as [json.loads] returns it. *)
Definition cache_stats_request : pyval :=
  PyDict [("jsonrpc", PyStr "2.0"); ("id", PyInt 7);
          ("method", PyStr "tools/call");
          ("params", PyDict [("name", PyStr "get_cache_stats")])].

End McpWebServer.

(* ===================================================================== *)
(** * The refresh coordinator                                             *)
(* ===================================================================== *)

Module Coordinator.

Inductive EntryKind : Type := Docs | Examples.

(** The composite [(frameworkName, section-or-pattern, kind)]. *)
Record CacheKey : Type := mkKey {
  frameworkName : string;
  qualifier : option string;
  kind : EntryKind
}.

#[global] Instance EntryKind_eq_dec : EqDecision EntryKind.
Proof. solve_decision. Defined.

#[global] Instance CacheKey_eq_dec : EqDecision CacheKey.
Proof. solve_decision. Defined.

#[global] Instance CacheKey_countable : Countable CacheKey.
Proof.
  refine (inj_countable'
            (fun k => (frameworkName k, qualifier k,
                       match kind k with Docs => true | Examples => false end))
            (fun t => mkKey t.1.1 t.1.2 (if t.2 then Docs else Examples)) _).
  intros [n q []]; reflexivity.
Defined.

Inductive SourceType : Type := GithubRepo | Website.

Record SourceDescriptor : Type := mkSource {
  sourceType : SourceType;
  sourceLocation : string
}.

(** A cached fetch result; times and durations are in seconds. *)
Record CacheEntry : Type := mkEntry {
  content : string;
  originMetadata : string;
  fetchedAt : Z;
  ttl : option Z
}.

(** Modelled from the spec: the Tiered Cache Store's [isStale]
    ([registry/cache.py] is not among the sources),
    [now - entry.fetchedAt > entry.ttl], an entry whose [ttl] is 0 or
    missing being always stale. *)
Definition isStale (entry : CacheEntry) (now : Z) : bool :=
  match ttl entry with
  | None => true
  | Some t => (t =? 0)%Z || (t <? now - fetchedAt entry)%Z
  end.

(** The two tiers: the local one, and the remote one when it is
    configured. *)
Record Store : Type := mkStore {
  local_tier : gmap CacheKey CacheEntry;
  remote_tier : option (gmap CacheKey CacheEntry)
}.

(** An entry that has not expired. *)
Definition live (now : Z) (found : option CacheEntry) : option CacheEntry :=
  match found with
  | Some e => if isStale e now then None else Some e
  | None => None
  end.

(** What the remote tier holds for [key]; nothing when it is not
    configured or does not answer ([up = false]). *)
Definition remote_lookup (s : Store) (up : bool) (key : CacheKey)
  : option CacheEntry :=
  if up then remote_tier s ≫= (fun r => r !! key) else None.

(** Modelled from the spec: the eviction on TTL expiry at a lookup.  The
    local tier drops the entry of [key] when the lookup finds it
    expired; what the remote tier holds is left to the remote tier's
    own expiry. *)
Definition expire (s : Store) (key : CacheKey) (now : Z) : Store :=
  match local_tier s !! key with
  | Some e =>
      if isStale e now
      then mkStore (delete key (local_tier s)) (remote_tier s)
      else s
  | None => s
  end.

(** Modelled from the spec: the Tiered Cache Store's [get].  The local
    tier first, whose expired entry is evicted at this lookup and is a
    miss; then the remote tier, whose live entry is returned and
    backfills the local tier; an expired entry is [Absent] in either
    tier. *)
Definition get (s : Store) (key : CacheKey) (now : Z) (up : bool)
  : option CacheEntry * Store :=
  let s := expire s key now in
  match local_tier s !! key with
  | Some e => (Some e, s)
  | None =>
      match live now (remote_lookup s up key) with
      | Some e => (Some e, mkStore (<[key := e]> (local_tier s)) (remote_tier s))
      | None => (None, s)
      end
  end.

(** Modelled from the spec: the Tiered Cache Store's [put], the local
    tier always and the remote tier best-effort. *)
Definition put (s : Store) (key : CacheKey) (entry : CacheEntry) (up : bool)
  : Store :=
  mkStore (<[key := entry]> (local_tier s))
    (if up then (fun r => <[key := entry]> r) <$> remote_tier s
     else remote_tier s).

(** Modelled from the spec: the prior entry that the failure path looks
    for, present in a tier, expired or not.  It is read as the tiers
    hold it, not through [get], which would report an expired entry
    [Absent]. *)
Definition prior (s : Store) (up : bool) (key : CacheKey) : option CacheEntry :=
  match local_tier s !! key with
  | Some e => Some e
  | None => remote_lookup s up key
  end.


Record CacheStatistics : Type := mkStats {
  hits : nat;
  misses : nat;
  fetch_failures : nat;
  last_refresh : gmap string Z
}.

(** One invocation of [getOrRefresh]. *)
Definition Caller : Type := nat.

Definition FetchError : Type := string.

(** What a caller of [getOrRefresh] receives. *)
Inductive Outcome : Type :=
| Entry (entry : CacheEntry)
| Failure (err : FetchError).

(** The coordinator: the store; the callers that are past their cache
    read and have not checked the ticket map yet, each with the key and
    the source descriptor of its call; the [RefreshTicket] of each key
    being fetched with the callers attached to it in order of arrival;
    the statistics; what each caller has received; and two records of
    the Content Provider's use: the fetches in flight and every fetch
    ever started. *)
Record State : Type := mkState {
  store : Store;
  pending : gmap Caller (CacheKey * SourceDescriptor);
  tickets : gmap CacheKey (list Caller);
  stats : CacheStatistics;
  results : gmap Caller Outcome;
  in_flight : list CacheKey;
  provider_calls : list (CacheKey * SourceDescriptor)
}.

Definition init (s : Store) : State :=
  mkState s ∅ ∅ (mkStats 0 0 0 ∅) ∅ [] [].

(** Resolve a ticket: every waiter receives [out]. *)
Definition resolve (waiters : list Caller) (out : Outcome)
    (rs : gmap Caller Outcome) : gmap Caller Outcome :=
  foldr (fun c acc => <[c := out]> acc) rs waiters.

Definition record_hit (st : CacheStatistics) : CacheStatistics :=
  mkStats (S (hits st)) (misses st) (fetch_failures st) (last_refresh st).
Definition record_miss (st : CacheStatistics) : CacheStatistics :=
  mkStats (hits st) (S (misses st)) (fetch_failures st) (last_refresh st).
Definition record_failure (st : CacheStatistics) : CacheStatistics :=
  mkStats (hits st) (misses st) (S (fetch_failures st)) (last_refresh st).
Definition record_refresh (name : string) (now : Z) (st : CacheStatistics)
  : CacheStatistics :=
  mkStats (hits st) (misses st) (fetch_failures st)
    (<[name := now]> (last_refresh st)).

Section Coordinator.

(** The time to live of the entries of each kind. *)
Variable ttl_of : EntryKind -> Z.

(** Modelled from the spec: steps 1 and 2 of [getOrRefresh] (the
    coordinator of [tools/documentation.py] and [registry/cache.py] is
    not among the sources).  The cache is read unless [useCache] is
    false or [forceRefresh] is true; a live entry is a hit and is
    returned; otherwise the caller goes on to step 3.  The read may
    suspend on the remote tier, so that other steps take place before
    the caller checks the ticket map. *)
Definition getOrRefresh_read (c : Caller) (key : CacheKey)
    (sourceDescriptor : SourceDescriptor) (forceRefresh useCache : bool)
    (now : Z) (up : bool) (st : State) : State :=
  if negb useCache || forceRefresh then
    mkState (store st) (<[c := (key, sourceDescriptor)]> (pending st))
      (tickets st) (stats st) (results st) (in_flight st) (provider_calls st)
  else
    match get (store st) key now up with
    | (Some entry, store') =>
        mkState store' (pending st) (tickets st) (record_hit (stats st))
          (<[c := Entry entry]> (results st)) (in_flight st)
          (provider_calls st)
    | (None, store') =>
        mkState store' (<[c := (key, sourceDescriptor)]> (pending st))
          (tickets st) (stats st) (results st) (in_flight st)
          (provider_calls st)
    end.

(** Modelled from the spec: step 3 of [getOrRefresh] up to the point
    where the caller waits for the fetch.  The miss is recorded and, in
    one atomic check-and-create, the caller is attached to the ticket
    of its key, or the ticket is created and the Content Provider is
    called.  The cache is not read again. *)
Definition getOrRefresh_ticket (c : Caller) (st : State) : State :=
  match pending st !! c with
  | None => st
  | Some (key, sourceDescriptor) =>
      match tickets st !! key with
      | Some waiters =>
          mkState (store st) (delete c (pending st))
            (<[key := waiters ++ [c]]> (tickets st))
            (record_miss (stats st)) (results st) (in_flight st)
            (provider_calls st)
      | None =>
          mkState (store st) (delete c (pending st))
            (<[key := [c]]> (tickets st))
            (record_miss (stats st)) (results st) (key :: in_flight st)
            (provider_calls st ++ [(key, sourceDescriptor)])
      end
  end.

(** What the waiters of a failed fetch receive: the prior entry when
    there is one, the failure otherwise. *)
Definition served (old : option CacheEntry) (err : FetchError) : Outcome :=
  match old with
  | Some entry => Entry entry
  | None => Failure err
  end.

(** Modelled from the spec: the completion of the fetch of [key].  On
    success the entry is built and put, the ticket is resolved with it
    and the refresh is recorded; on failure the ticket is resolved with
    the prior entry or the failure, the failure is counted and nothing
    is written.  The ticket is destroyed either way.  The ticket is
    there until the waiters are released, so that a caller that checks
    the ticket map during the [put] attaches to it; the completion is
    one step. *)
Definition complete (key : CacheKey)
    (fetched : FetchError + string * string) (now : Z) (up : bool)
    (st : State) : State :=
  match tickets st !! key with
  | None => st
  | Some waiters =>
      let in_flight' := filter (fun k => k <> key) (in_flight st) in
      match fetched with
      | inr (text, origin) =>
          let entry := mkEntry text origin now (Some (ttl_of (kind key))) in
          mkState (put (store st) key entry up) (pending st)
            (delete key (tickets st))
            (record_refresh (frameworkName key) now (stats st))
            (resolve waiters (Entry entry) (results st))
            in_flight' (provider_calls st)
      | inl err =>
          mkState (store st) (pending st) (delete key (tickets st))
            (record_failure (stats st))
            (resolve waiters (served (prior (store st) up key) err)
               (results st))
            in_flight' (provider_calls st)
      end
  end.

(** Modelled from the spec: the evictions that no lookup causes.  The
    local tier drops an entry under size pressure, the remote tier by
    its own expiry. *)
Definition evict (remote : bool) (key : CacheKey) (st : State) : State :=
  let s := store st in
  mkState
    (if remote then mkStore (local_tier s) (delete key <$> remote_tier s)
     else mkStore (delete key (local_tier s)) (remote_tier s))
    (pending st) (tickets st) (stats st) (results st) (in_flight st)
    (provider_calls st).





(** What happens to the coordinator, one atomic step at a time: a
    caller reads the cache, a caller checks the ticket map, a fetch
    completes, a tier evicts. *)
Inductive Event : Type :=
| Read (c : Caller) (key : CacheKey) (sourceDescriptor : SourceDescriptor)
       (forceRefresh useCache : bool) (now : Z) (up : bool)
| Ticket (c : Caller)
| Complete (key : CacheKey) (fetched : FetchError + string * string)
           (now : Z) (up : bool)
| Evict (remote : bool) (key : CacheKey).

Definition step (st : State) (ev : Event) : State :=
  match ev with
  | Read c key src force useCache now up =>
      getOrRefresh_read c key src force useCache now up st
  | Ticket c => getOrRefresh_ticket c st
  | Complete key fetched now up => complete key fetched now up st
  | Evict remote key => evict remote key st
  end.

Definition run (evs : list Event) (st : State) : State :=
  fold_left step evs st.


Definition fetches_started (key : CacheKey) (st : State) : nat :=
  length (filter (fun kd => kd.1 = key) (provider_calls st)).







End Coordinator.

(* ===================================================================== *)
(** * Concrete runs of the coordinator                                    *)
(* ===================================================================== *)

Definition day : EntryKind -> Z := fun _ => 86400%Z.

Definition react_docs : CacheKey := mkKey "react" None Docs.

Definition react_source : SourceDescriptor :=
  mkSource GithubRepo "facebook/react".

Definition cold_store : Store := mkStore ∅ None.



Definition old_react : CacheEntry :=
  mkEntry "# React (old)" "github:facebook/react" 0 (Some 86400%Z).

Definition stale_state : State :=
  init (mkStore {[react_docs := old_react]} None).

(** The same with a remote tier that holds the entry too. *)
Definition stale_shared_state : State :=
  init (mkStore {[react_docs := old_react]} (Some {[react_docs := old_react]})).

(** A refresh that skips the cache read, up to the wait for the fetch. *)
Definition forced_refresh : list Event :=
  [Read 1 react_docs react_source true true 100000 false; Ticket 1].

(** A refresh that the cache read of an expired entry triggers. *)
Definition triggered_refresh (up : bool) : list Event :=
  [Read 1 react_docs react_source false true 100000 up; Ticket 1].

End Coordinator.

(* ===================================================================== *)
(** * Properties of the server                                            *)
(* ===================================================================== *)

Module McpWebServerFacts.

Import McpWebServer.
Local Open Scope py_scope.

(** Decide the comparisons of string literals in the goal. *)
Ltac eval_eqb :=
  repeat match goal with
         | |- context [String.eqb ?a ?b] =>
             let r := eval vm_compute in (String.eqb a b) in
             change (String.eqb a b) with r
         end.

Section ServerFacts.

Variable W : World.

Lemma handlers_get_None hs method :
  handlers_get hs method = None <-> method ∉ map fst hs.
Proof.
  induction hs as [| [k h] hs IH]; cbn [handlers_get map fst].
  - split; [intros _; apply not_elem_of_nil | reflexivity].
  - rewrite not_elem_of_cons.
    destruct (String.eqb_spec k method) as [Heq | Hne].
    + split; [discriminate | intros [Hm _]; congruence].
    + rewrite IH. split; [intros Hm; split; [congruence | exact Hm] | tauto].
Qed.

Lemma handlers_get_names method :
  handlers_get (METHOD_HANDLERS W) method = None <-> method ∉ METHOD_NAMES.
Proof. apply handlers_get_None. Qed.

(** What [process_message] does once the handler of the method is known
    and has run. *)
Lemma process_message_handler message h s :
  handlers_get (METHOD_HANDLERS W) (req_method message) = Some h ->
  process_message W message s =
    match h (req_params message) s with
    | (inr v, s') => (inr (mkResponse "2.0" (req_id message) v None), s')
    | (inl (Exc e), s') =>
        (inr (error_response (req_id message) (-32603) (exn_str e)),
         record (Log ERROR ("Error processing message: " +:+ exn_str e)) s')
    | (inl (Sig b), s') => (inl (Sig b), s')
    end.
Proof.
  intros Hh. unfold process_message, try_except. rewrite Hh.
  unfold bind.
  destruct (h (req_params message) s) as [[[e | b] | v] s']; reflexivity.
Qed.

Lemma process_message_no_handler message s :
  handlers_get (METHOD_HANDLERS W) (req_method message) = None ->
  process_message W message s =
    (inr (error_response (req_id message) (-32601)
            ("Method not found: " +:+ req_method message)), s).
Proof.
  intros Hh. unfold process_message, try_except. rewrite Hh. reflexivity.
Qed.

Lemma handlers_get_tools_call :
  handlers_get (METHOD_HANDLERS W) "tools/call" = Some (handle_tools_call W).
Proof. reflexivity. Qed.

Lemma handle_tools_call_no_name params s :
  (params = None \/ exists p, params = Some p /\ dict_get p "name" = None) ->
  handle_tools_call W params s
  = (inl (Exc (ValueError "Tool name is required")), s).
Proof.
  intros [-> | (p & -> & Hn)]; [reflexivity |].
  unfold handle_tools_call, dict_mem. cbn [from_option id]. rewrite Hn.
  rewrite orb_true_r. reflexivity.
Qed.

Lemma handle_tools_call_unknown p v s :
  dict_get p "name" = Some v ->
  is_tool_name v = false ->
  handle_tools_call W (Some p) s =
    (inl (Exc (ValueError ("Unknown tool: " +:+ py_str W v))), s).
Proof.
  intros Hn Hk.
  assert (Hp : params_falsy (Some p) = false)
    by (destruct p; [discriminate | reflexivity]).
  unfold handle_tools_call, dict_mem. rewrite Hp. cbn [from_option id].
  rewrite Hn. cbn [orb negb py_getitem]. rewrite Hn.
  unfold is_tool_name, TOOL_NAMES in Hk. cbn [existsb] in Hk.
  repeat (apply orb_false_elim in Hk; destruct Hk as [?H Hk]).
  unfold bind, lift, get_globals, raise.
  repeat match goal with
         | H : py_eq_str v _ = false |- _ => rewrite H; clear H
         end.
  reflexivity.
Qed.

(** The dispatcher's prelude, once the tool is named by a string. *)
Ltac enter_tool Hn :=
  match type of Hn with
  | dict_get ?p "name" = Some _ =>
      let Hp := fresh "Hp" in
      assert (Hp : params_falsy (Some p) = false)
        by (destruct p; [discriminate | reflexivity]);
      unfold handle_tools_call, dict_mem;
      rewrite Hp; cbn [from_option id]; rewrite Hn;
      cbn [orb negb py_getitem]; rewrite Hn;
      unfold bind at 1, lift at 1; unfold bind at 1, get_globals at 1;
      cbn [py_eq_str]; eval_eqb; cbv iota
  end.

(** C6. A [get_framework_docs] call whose arguments have no [use_cache]
    reaches the documentation operation with [use_cache=True], and with
    [section=None] when [section] is omitted too; without the required
    [framework] the operation is not reached at all. *)
Theorem get_framework_docs_defaults (p args : pydict) (s : State) :
  dict_get p "name" = Some (PyStr "get_framework_docs") ->
  tool_arguments p = PyDict args ->
  dict_get args "use_cache" = None ->
  handle_tools_call W (Some p) s =
    match dict_get args "framework" with
    | Some framework =>
        let tc :=
          get_framework_docs
            (registry_manager (globals s)) (doc_cache (globals s))
            (github_provider (globals s)) (website_provider (globals s))
            framework (default PyNone (dict_get args "section"))
            (PyBool true) in
        (run_tool W tc, record (ToolCall tc) s)
    | None => (inl (Exc (KeyError "framework")), s)
    end.
Proof.
  intros Hn Hargs Huse. unfold tool_arguments in Hargs.
  enter_tool Hn. rewrite Hargs. cbn [py_getitem py_get]. rewrite Huse.
  unfold bind, lift, call_tool, emit, record.
  destruct (dict_get args "framework"); [| reflexivity].
  destruct (dict_get args "section"); reflexivity.
Qed.

(** C7. A [search_documentation] call whose arguments have no [limit]
    reaches the search operation with [limit=10]; without the required
    [framework] or [query] the operation is not reached at all. *)
Theorem search_documentation_default_limit (p args : pydict) (s : State) :
  dict_get p "name" = Some (PyStr "search_documentation") ->
  tool_arguments p = PyDict args ->
  dict_get args "limit" = None ->
  handle_tools_call W (Some p) s =
    match dict_get args "framework", dict_get args "query" with
    | Some framework, Some query =>
        let tc :=
          search_documentation (doc_cache (globals s)) framework query
            (PyInt 10) in
        (run_tool W tc, record (ToolCall tc) s)
    | None, _ => (inl (Exc (KeyError "framework")), s)
    | Some _, None => (inl (Exc (KeyError "query")), s)
    end.
Proof.
  intros Hn Hargs Hlimit. unfold tool_arguments in Hargs.
  enter_tool Hn. rewrite Hargs. cbn [py_getitem py_get]. rewrite Hlimit.
  unfold bind, lift, call_tool, emit, record.
  destruct (dict_get args "framework"); [| reflexivity].
  destruct (dict_get args "query"); reflexivity.
Qed.

Lemma call_tool_run (tc : tool_call) (s : State) :
  call_tool W tc s = (run_tool W tc, record (ToolCall tc) s).
Proof. reflexivity. Qed.

(** Walk the dispatcher in [H : r = handle_tools_call W params s]: the
    guard, the name, the chain of comparisons, then the lookups of the
    arguments. *)
Ltac walk_dispatcher H :=
  unfold handle_tools_call in H;
  match type of H with
  | context [params_falsy ?p || ?b] => destruct (params_falsy p || b)
  end;
  [| unfold bind at 1, lift at 1 in H;
     match type of H with
     | context [py_getitem (PyDict ?d) "name"] =>
         destruct (py_getitem (PyDict d) "name") as [? | ?tool_name]
     end;
     [| unfold bind at 1, get_globals in H; cbv beta iota in H;
        repeat match type of H with
               | context [py_eq_str ?v ?n] =>
                   destruct (py_eq_str v n); cbv beta iota in H
               end;
        unfold bind, lift in H;
        repeat match type of H with
               | context [py_getitem ?a ?k] => destruct (py_getitem a k)
               | context [py_get ?a ?k ?d] => destruct (py_get a k d)
               end]].

(** The dispatcher raises an [Exception] before it has done anything, or
    awaits one tool implementation and ends as that one does. *)
Lemma handle_tools_call_cases (params : option pydict) (s : State) :
  (exists e, handle_tools_call W params s = (inl (Exc e), s)) \/
  (exists tc,
     handle_tools_call W params s = (run_tool W tc, record (ToolCall tc) s) /\
     passes_globals (globals s) tc).
Proof.
  remember (handle_tools_call W params s) as r eqn:Hr.
  walk_dispatcher Hr;
    first [ left; eexists; exact Hr
          | right; eexists; split; [exact Hr |];
            cbn [passes_globals]; repeat split ].
Qed.

(** The handler the table has for a method. *)
Lemma handlers_get_cases (method : string) (h : handler) :
  handlers_get (METHOD_HANDLERS W) method = Some h ->
  (method = "initialize" /\ h = handle_initialize) \/
  (method = "initialized" /\ h = handle_initialized) \/
  (method = "tools/list" /\ h = handle_tools_list) \/
  (method = "tools/call" /\ h = handle_tools_call W) \/
  (method = "completion/complete" /\ h = handle_completion_complete).
Proof.
  unfold METHOD_HANDLERS. cbn [handlers_get].
  repeat match goal with
         | |- context [String.eqb ?a method] =>
             destruct (String.eqb_spec a method) as [? | ?];
             [intros [= <-]; subst method; tauto |]
         end.
  discriminate.
Qed.

(** How a handler of the table ends: with a value, with an [Exception],
    or, for [tools/call] alone, as the tool it awaited was cut short. *)
Lemma handler_cases (message : JsonRpcRequest) (h : handler) (s : State) :
  handlers_get (METHOD_HANDLERS W) (req_method message) = Some h ->
  (exists v s1, h (req_params message) s = (inr v, s1) /\
                globals s1 = globals s) \/
  (exists e s1, h (req_params message) s = (inl (Exc e), s1) /\
                globals s1 = globals s) \/
  (exists tc b,
     req_method message = "tools/call" /\
     passes_globals (globals s) tc /\
     run_tool W tc = inl (Sig b) /\
     h (req_params message) s = (inl (Sig b), record (ToolCall tc) s)).
Proof.
  intros Hh.
  destruct (handlers_get_cases _ _ Hh)
    as [[Hm ->] | [[Hm ->] | [[Hm ->] | [[Hm ->] | [Hm ->]]]]];
    try (left; eexists _, _; split; reflexivity).
  destruct (handle_tools_call_cases (req_params message) s)
    as [[e ->] | (tc & -> & Hg)]; [right; left; eauto |].
  destruct (run_tool W tc) as [[e | b] | v] eqn:Hrun;
    [right; left; eauto | right; right | left; eauto].
  exists tc, b. repeat split; assumption.
Qed.

(** C9. [process_message] never raises an [Exception]: it returns one
    response, which echoes the request's id, unless the tool that a
    [tools/call] awaits raises a [BaseException] that is no [Exception]
    (the cancellation of the task, for one); that one passes the
    [except Exception] clause and [process_message] raises it, with
    nothing logged.  In a response, a method outside the five registered
    ones is answered with error -32601; an [Exception] of the handler
    with error -32603 and the exception's message, which covers a
    [tools/call] without a tool name and one that names an unknown
    tool. *)
Theorem process_message_answers_exceptions (message : JsonRpcRequest)
    (s : State) :
  (forall e s', process_message W message s <> (inl (Exc e), s')) /\
  ((exists resp s',
      process_message W message s = (inr resp, s') /\
      resp_id resp = req_id message /\
      (req_method message ∉ METHOD_NAMES ->
       resp = error_response (req_id message) (-32601)
                ("Method not found: " +:+ req_method message)) /\
      (forall h e s1,
         handlers_get (METHOD_HANDLERS W) (req_method message) = Some h ->
         h (req_params message) s = (inl (Exc e), s1) ->
         resp = error_response (req_id message) (-32603) (exn_str e)) /\
      (req_method message = "tools/call" ->
       (req_params message = None \/
        exists p, req_params message = Some p /\ dict_get p "name" = None) ->
       resp = error_response (req_id message) (-32603)
                "Tool name is required") /\
      (forall p v,
         req_method message = "tools/call" ->
         req_params message = Some p ->
         dict_get p "name" = Some v ->
         is_tool_name v = false ->
         resp = error_response (req_id message) (-32603)
                  ("Unknown tool: " +:+ py_str W v))) \/
   (exists tc b,
      req_method message = "tools/call" /\
      passes_globals (globals s) tc /\
      run_tool W tc = inl (Sig b) /\
      process_message W message s = (inl (Sig b), record (ToolCall tc) s))).
Proof.
  destruct (handlers_get (METHOD_HANDLERS W) (req_method message))
    as [h |] eqn:Hh.
  - pose proof (process_message_handler message h s Hh) as Hrun.
    assert (Hcall : req_method message = "tools/call" ->
                    h = handle_tools_call W).
    { intros Hm. rewrite Hm, handlers_get_tools_call in Hh. congruence. }
    destruct (handler_cases message h s Hh)
      as [(v & s1 & Hrun_h & _) | [(e & s1 & Hrun_h & _)
                                   | (tc & b & Hm & Hg & Hb & Hrun_h)]];
      rewrite Hrun_h in Hrun; (split; [rewrite Hrun; discriminate |]).
    + left. eexists _, _. split; [exact Hrun |]. split; [reflexivity |].
      repeat split.
      * intros Hout. apply handlers_get_names in Hout. congruence.
      * intros h' e' s1' Hh' Hrun'. congruence.
      * intros Hm Hname. rewrite (Hcall Hm) in Hrun_h.
        rewrite (handle_tools_call_no_name _ _ Hname) in Hrun_h.
        discriminate.
      * intros p v' Hm Hp Hn Hk. rewrite (Hcall Hm), Hp in Hrun_h.
        rewrite (handle_tools_call_unknown _ _ _ Hn Hk) in Hrun_h.
        discriminate.
    + left. eexists _, _. split; [exact Hrun |]. split; [reflexivity |].
      repeat split.
      * intros Hout. apply handlers_get_names in Hout. congruence.
      * intros h' e' s1' Hh' Hrun'. congruence.
      * intros Hm Hname. rewrite (Hcall Hm) in Hrun_h.
        rewrite (handle_tools_call_no_name _ _ Hname) in Hrun_h.
        injection Hrun_h as <- _. reflexivity.
      * intros p v Hm Hp Hn Hk. rewrite (Hcall Hm), Hp in Hrun_h.
        rewrite (handle_tools_call_unknown _ _ _ Hn Hk) in Hrun_h.
        injection Hrun_h as <- _. reflexivity.
    + right. exists tc, b. repeat split; assumption.
  - pose proof (process_message_no_handler message s Hh) as Hrun.
    split; [rewrite Hrun; discriminate |].
    left. eexists _, _. split; [exact Hrun |].
    split; [reflexivity |].
    repeat split.
    + intros h e s1 Hh'. discriminate.
    + intros Hm. rewrite Hm, handlers_get_tools_call in Hh. discriminate.
    + intros p v Hm. rewrite Hm, handlers_get_tools_call in Hh. discriminate.
Qed.

(** C5. When the handler of a [tools/call] request raises (the tool
    implementation itself, or the dispatcher before it), the response of
    [process_message] carries the error object with code -32603 and the
    exception's message, its result is [None], and the serialized
    response has an ["error"] field and no ["result"] field. *)
Theorem tool_failure_is_explicit_error (message : JsonRpcRequest)
    (s s1 : State) (e : exn) :
  req_method message = "tools/call" ->
  handle_tools_call W (req_params message) s = (inl (Exc e), s1) ->
  exists resp s',
    process_message W message s = (inr resp, s') /\
    resp = error_response (req_id message) (-32603) (exn_str e) /\
    resp_result resp = PyNone /\
    (exists d, model_dump true resp = PyDict d /\
               dict_get d "result" = None /\
               dict_get d "error"
               = Some (PyDict (error_object (-32603) (exn_str e)))).
Proof.
  intros Hm Hrun.
  pose proof (process_message_handler message (handle_tools_call W) s) as Hp.
  rewrite Hm in Hp. specialize (Hp handlers_get_tools_call).
  rewrite Hrun in Hp.
  eexists _, _. split; [exact Hp |]. split; [reflexivity |].
  split; [reflexivity |].
  unfold model_dump, error_response.
  cbn [resp_jsonrpc resp_id resp_result resp_error List.filter snd negb].
  destruct (req_id message); eexists; (split; [reflexivity |]);
    split; reflexivity.
Qed.

(** C10. A request for the [initialized] method succeeds with the
    handler's [None]; the one event sent then serializes a response with
    the fields [jsonrpc] and, unless it is [None] too, [id]: it has
    neither a ["result"] nor an ["error"] field. *)
Theorem initialized_response_fields (request_body : string) (data : pyval)
    (request : JsonRpcRequest) (s : State) :
  json_loads W request_body = inr data ->
  JsonRpcRequest_new W data = inr request ->
  req_method request = "initialized" ->
  exists d,
    sse_generator W request_body s
    = (inr [sse_data W (PyDict d)], record (Log INFO "Client initialized") s) /\
    d = ("jsonrpc", PyStr "2.0")
        :: match req_id request with
           | PyNone => []
           | id => [("id", id)]
           end /\
    dict_get d "result" = None /\
    dict_get d "error" = None /\
    dict_keys d ⊆ ["jsonrpc"; "id"].
Proof.
  intros Hloads Hnew Hm.
  unfold sse_generator, try_except, bind, lift. rewrite Hloads, Hnew.
  assert (Hh : handlers_get (METHOD_HANDLERS W) (req_method request)
               = Some (handle_initialized)) by (rewrite Hm; reflexivity).
  rewrite (process_message_handler request _ s Hh).
  unfold handle_initialized, bind, logger_info, emit, ret, record.
  unfold model_dump.
  cbn [resp_jsonrpc resp_id resp_result resp_error List.filter snd negb
       req_jsonrpc].
  destruct (req_id request); eexists; (split; [reflexivity |]);
    (split; [reflexivity |]); (split; [reflexivity |]);
    (split; [reflexivity |]); cbn [dict_keys map fst]; set_solver.
Qed.

(* ===================================================================== *)
(** * Properties of the lifecycle                                         *)
(* ===================================================================== *)

Lemma lifespan_startup_halves :
  lifespan_startup W =
    (logger_info "Starting MCP Web Server" ;;
     try_except (init_redis W ;; init_registry_and_providers W) startup_failed).
Proof. reflexivity. Qed.

Lemma lifespan_startup_run (s : State) :
  lifespan_startup W s =
    match init_redis W (record (Log INFO "Starting MCP Web Server") s) with
    | (inl (Exc e), s1) =>
        (inl (Exc e), record (Log ERROR ("Failed to initialize server: "
                                         +:+ exn_str e)) s1)
    | (inl (Sig b), s1) => (inl (Sig b), s1)
    | (inr _, s1) =>
        match init_registry_and_providers W s1 with
        | (inl (Exc e), s2) =>
            (inl (Exc e), record (Log ERROR ("Failed to initialize server: "
                                             +:+ exn_str e)) s2)
        | (inl (Sig b), s2) => (inl (Sig b), s2)
        | (inr u, s2) => (inr u, s2)
        end
    end.
Proof.
  rewrite lifespan_startup_halves.
  unfold bind at 1, logger_info at 1, emit at 1, try_except, bind at 1.
  fold (record (Log INFO "Starting MCP Web Server") s).
  destruct (init_redis W _) as [[[e | b] | []] s1]; [reflexivity .. |].
  destruct (init_registry_and_providers W s1) as [[[e | b] | u] s2];
    reflexivity.
Qed.

Lemma init_registry_and_providers_spec (s : State) :
  exists evs,
    trace (init_registry_and_providers W s).2 = trace s ++ evs /\
    forallb (fun ev => negb (is_redis_event ev)) evs = true /\
    NewFrameworkRegistryManager FrameworkRegistryManager_new ∈ evs /\
    (forall c, NewDocumentationCache c ∈ evs ->
               c = DocumentationCache_new (redis_client (globals s))) /\
    redis_client (globals (init_registry_and_providers W s).2)
    = redis_client (globals s) /\
    (init_registry_and_providers W s).1
    = outcome (first_failure (later_answers W (redis_client (globals s)))) /\
    ((init_registry_and_providers W s).1 = inr tt ->
     doc_cache (globals (init_registry_and_providers W s).2)
     = Some (DocumentationCache_new (redis_client (globals s)))).
Proof.
  unfold init_registry_and_providers, later_answers, bind, perform,
    modify_globals, get_globals, logger_info, emit.
  cbn [globals trace redis_client set_registry_manager set_doc_cache
       set_github_provider set_website_provider first_failure].
  destruct (registry_init W _);
    [| destruct (registry_initialize W _);
       [| destruct (cache_init W _);
          [| destruct (github_init W _);
             [| destruct (website_init W _)]]]];
    cbn [fst snd globals trace redis_client doc_cache outcome];
    rewrite <- ?app_assoc; cbn [app];
    (eexists; split; [reflexivity |]);
    (split; [reflexivity |]);
    (split; [set_solver |]);
    (split; [intros c Hin; set_solver |]);
    (split; [reflexivity |]);
    (split; [reflexivity |]);
    first [ discriminate | reflexivity ].
Qed.

Lemma outcome_raises (r : raised) (failure : option exn) :
  inl r = outcome failure -> exists e, r = Exc e.
Proof. destruct failure; intros [= ->]; eauto. Qed.

Lemma init_redis_default (s : State) :
  redis_url_is_default W -> init_redis W s = (inr tt, s).
Proof.
  intros Hurl. unfold init_redis, get_redis_url, DEFAULT_REDIS_URL.
  destruct Hurl as [-> | ->]; cbn [from_option id]; eval_eqb; reflexivity.
Qed.

Lemma init_redis_unreachable (u : string) (e : exn) (s : State) :
  getenv W "REDIS_URL" = Some u ->
  u <> "redis://localhost:6379/0" ->
  redis_unreachable W (from_url u "utf-8" true 5 5) e ->
  exists evs,
    init_redis W s = (inr tt, mkState (set_redis_client None (globals s))
                              (trace s ++ evs)) /\
    redis_warning e ∈ evs /\
    forall c, NewDocumentationCache c ∉ evs.
Proof.
  intros Henv Hne Hdown. unfold init_redis, get_redis_url.
  rewrite Henv. cbn [from_option id].
  destruct (String.eqb_spec u "redis://localhost:6379/0") as [? | _];
    [contradiction |].
  cbn [negb]. unfold try_except, bind, perform, modify_globals,
    logger_warning, logger_info, emit, redis_warning.
  destruct Hdown as [Hc | [Hc Hp]].
  - rewrite Hc. cbn [globals trace]. rewrite <- app_assoc. cbn [app].
    eexists. split; [reflexivity |]. split; [set_solver |].
    intros c Hin. set_solver.
  - rewrite Hc. cbn [globals trace]. rewrite Hp. cbn [globals trace].
    rewrite <- !app_assoc. cbn [app].
    eexists. split; [reflexivity |]. split; [set_solver |].
    intros c Hin. set_solver.
Qed.

(** C8. With [REDIS_URL] unset or at its default the startup makes no
    Redis call whatever the Redis server would answer, the global client
    stays [None], and the documentation cache is constructed with
    [redis_client=None]. *)
Theorem default_redis_url_skips_redis (s : State) :
  redis_url_is_default W ->
  redis_client (globals s) = None ->
  exists evs,
    trace (lifespan_startup W s).2 = trace s ++ evs /\
    forallb (fun ev => negb (is_redis_event ev)) evs = true /\
    (forall c, NewDocumentationCache c ∈ evs ->
               c = DocumentationCache_new None) /\
    redis_client (globals (lifespan_startup W s).2) = None /\
    ((lifespan_startup W s).1 = inr tt ->
     doc_cache (globals (lifespan_startup W s).2)
     = Some (DocumentationCache_new None)).
Proof.
  intros Hurl Hrc. rewrite lifespan_startup_run.
  rewrite (init_redis_default _ Hurl).
  set (s1 := record (Log INFO "Starting MCP Web Server") s).
  destruct (init_registry_and_providers_spec s1)
    as (evs & Htr & Hnr & _ & Hdc & Hrcl & Hout & Hok).
  change (redis_client (globals s1)) with (redis_client (globals s)) in *.
  rewrite Hrc in *.
  destruct (init_registry_and_providers W s1) as [[r | []] s2];
    cbn [fst snd] in *; [destruct (outcome_raises _ _ Hout) as [e ->] |];
    subst s1; unfold record in *;
    cbn [globals trace] in *;
    rewrite Htr; rewrite <- ?app_assoc; cbn [app];
    (eexists; split; [reflexivity |]).
  - split; [cbn [forallb is_redis_event negb andb]; rewrite forallb_app, Hnr;
            reflexivity |].
    split; [| split; [exact Hrcl | discriminate]].
    intros c Hin. apply Hdc. set_solver.
  - split; [cbn [forallb is_redis_event negb andb]; exact Hnr |].
    split; [| split; [exact Hrcl | exact Hok]].
    intros c Hin. apply Hdc. set_solver.
Qed.

(** C2. With a Redis URL configured and the Redis server not answering,
    the startup logs the warning, leaves the global client [None], goes
    on to the registry and builds the documentation cache with
    [redis_client=None]; its outcome is decided by the later
    collaborators alone, so the Redis error never reaches the caller. *)
Theorem redis_unreachable_startup_degrades (u : string) (e : exn)
    (s : State) :
  getenv W "REDIS_URL" = Some u ->
  u <> "redis://localhost:6379/0" ->
  redis_unreachable W (from_url u "utf-8" true 5 5) e ->
  exists evs,
    trace (lifespan_startup W s).2 = trace s ++ evs /\
    redis_warning e ∈ evs /\
    NewFrameworkRegistryManager FrameworkRegistryManager_new ∈ evs /\
    (forall c, NewDocumentationCache c ∈ evs ->
               c = DocumentationCache_new None) /\
    redis_client (globals (lifespan_startup W s).2) = None /\
    (lifespan_startup W s).1 = outcome (first_failure (later_answers W None)) /\
    ((lifespan_startup W s).1 = inr tt ->
     doc_cache (globals (lifespan_startup W s).2)
     = Some (DocumentationCache_new None)).
Proof.
  intros Henv Hne Hdown. rewrite lifespan_startup_run.
  set (s0 := record (Log INFO "Starting MCP Web Server") s).
  destruct (init_redis_unreachable u e s0 Henv Hne Hdown)
    as (evs0 & -> & Hwarn & Hnocache).
  set (s1 := mkState _ (trace s0 ++ evs0)).
  destruct (init_registry_and_providers_spec s1)
    as (evs & Htr & _ & Hreg & Hdc & Hrcl & Hout & Hok).
  change (redis_client (globals s1)) with (@None RedisClient) in *.
  destruct (init_registry_and_providers W s1) as [[r | []] s2];
    cbn [fst snd] in *; [destruct (outcome_raises _ _ Hout) as [e' ->] |];
    subst s1 s0; unfold record in *;
    cbn [globals trace] in *;
    rewrite Htr; rewrite <- ?app_assoc; cbn [app];
    (eexists; split; [reflexivity |]);
    (split; [set_solver |]); (split; [set_solver |]).
  - split; [| split; [exact Hrcl | split; [exact Hout | discriminate]]].
    intros c Hin. apply Hdc.
    pose proof (Hnocache c). set_solver.
  - split; [| split; [exact Hrcl | split; [exact Hout | exact Hok]]].
    intros c Hin. apply Hdc.
    pose proof (Hnocache c). set_solver.
Qed.

(** C3. When [FrameworkRegistryManager.initialize] raises, [lifespan]
    logs the failure and raises the same exception from its startup, so
    nothing of what the application would do while [lifespan] is
    suspended at its [yield] happens, and the shutdown code does not run
    either. *)
Theorem registry_load_failure_is_fatal (e : exn) (serving : M unit)
    (s : State) :
  registry_init W FrameworkRegistryManager_new = None ->
  registry_initialize W FrameworkRegistryManager_new = Some e ->
  (lifespan_startup W s).1 = inl (Exc e) /\
  lifespan W serving s = (inl (Exc e), (lifespan_startup W s).2) /\
  last (trace (lifespan_startup W s).2)
  = Some (Log ERROR ("Failed to initialize server: " +:+ exn_str e)) /\
  doc_cache (globals (lifespan_startup W s).2) = doc_cache (globals s).
Proof.
  intros Hnew Hinit.
  assert (Hrest : forall s1,
            init_registry_and_providers W s1
            = (inl (Exc e), mkState (set_registry_manager
                                 (Some FrameworkRegistryManager_new)
                                 (globals s1))
                        (trace s1 ++
                         [NewFrameworkRegistryManager FrameworkRegistryManager_new;
                          RegistryInitialize FrameworkRegistryManager_new]))).
  { intros s1. unfold init_registry_and_providers, bind, perform,
      modify_globals. rewrite Hnew. cbn [globals trace]. rewrite Hinit.
    rewrite <- app_assoc. reflexivity. }
  assert (Hredis : forall s0,
            exists s1, init_redis W s0 = (inr tt, s1) /\
                       doc_cache (globals s1) = doc_cache (globals s0)).
  { intros s0. unfold init_redis.
    destruct (negb _); [| eexists; split; reflexivity].
    unfold try_except, bind, perform, modify_globals, logger_info,
      logger_warning, emit.
    destruct (redis_connect W _); [eexists; split; reflexivity |].
    cbn [globals trace].
    destruct (redis_ping W _); eexists; split; reflexivity. }
  assert (Hrun : exists s2,
            lifespan_startup W s
            = (inl (Exc e),
               record (Log ERROR ("Failed to initialize server: "
                                  +:+ exn_str e)) s2) /\
            doc_cache (globals s2) = doc_cache (globals s)).
  { rewrite lifespan_startup_run.
    destruct (Hredis (record (Log INFO "Starting MCP Web Server") s))
      as (s1 & -> & Hdc).
    rewrite Hrest. eexists. split; [reflexivity |]. exact Hdc. }
  destruct Hrun as (s2 & Hrun & Hdc).
  unfold lifespan, bind. rewrite Hrun. cbn [fst snd].
  split; [reflexivity |]. split; [reflexivity |].
  split; [| exact Hdc].
  unfold record. cbn [trace]. apply last_snoc.
Qed.

End ServerFacts.

(* ===================================================================== *)
(** * Runs in concrete worlds                                             *)
(* ===================================================================== *)

Lemma tool_failure_is_explicit_error_witness :
  exists resp s',
    process_message (world no_env None None tools_fail loads_fails)
      (call_request 7 "get_framework_docs" [("framework", PyStr "react")])
      fresh_state = (inr resp, s') /\
    resp = error_response (PyInt 7) (-32603)
             "no cached content and the fetch failed" /\
    resp_result resp = PyNone /\
    (exists d, model_dump true resp = PyDict d /\
               dict_get d "result" = None /\
               dict_get d "error"
               = Some (PyDict (error_object (-32603)
                                 "no cached content and the fetch failed"))).
Proof.
  eapply (tool_failure_is_explicit_error
            (world no_env None None tools_fail loads_fails)
            (call_request 7 "get_framework_docs" [("framework", PyStr "react")])
            fresh_state _ fetch_failed).
  - reflexivity.
  - vm_compute. reflexivity.
Defined.

Lemma get_framework_docs_defaults_witness :
  handle_tools_call (world no_env None None tools_ok loads_fails)
    (Some [("name", PyStr "get_framework_docs");
           ("arguments", PyDict [("framework", PyStr "react")])])
    fresh_state
  = (inr (PyDict []),
     mkState initial_globals
       [ToolCall (get_framework_docs None None None None
                    (PyStr "react") PyNone (PyBool true))]).
Proof.
  apply (get_framework_docs_defaults
           (world no_env None None tools_ok loads_fails)
           [("name", PyStr "get_framework_docs");
            ("arguments", PyDict [("framework", PyStr "react")])]
           [("framework", PyStr "react")] fresh_state);
    reflexivity.
Defined.

Lemma search_documentation_default_limit_witness :
  handle_tools_call (world no_env None None tools_ok loads_fails)
    (Some [("name", PyStr "search_documentation");
           ("arguments", PyDict [("framework", PyStr "react");
                                 ("query", PyStr "hooks")])])
    fresh_state
  = (inr (PyDict []),
     mkState initial_globals
       [ToolCall (search_documentation None (PyStr "react") (PyStr "hooks")
                    (PyInt 10))]).
Proof.
  apply (search_documentation_default_limit
           (world no_env None None tools_ok loads_fails)
           [("name", PyStr "search_documentation");
            ("arguments", PyDict [("framework", PyStr "react");
                                  ("query", PyStr "hooks")])]
           [("framework", PyStr "react"); ("query", PyStr "hooks")]
           fresh_state);
    reflexivity.
Defined.

Lemma initialized_response_fields_witness :
  exists d,
    sse_generator
      (world no_env None None tools_ok (fun _ => inr initialized_request))
      "{}" fresh_state
    = (inr [sse_data
              (world no_env None None tools_ok (fun _ => inr initialized_request))
              (PyDict d)],
       record (Log INFO "Client initialized") fresh_state) /\
    d = [("jsonrpc", PyStr "2.0"); ("id", PyInt 2)] /\
    dict_get d "result" = None /\
    dict_get d "error" = None /\
    dict_keys d ⊆ ["jsonrpc"; "id"].
Proof.
  apply (initialized_response_fields
           (world no_env None None tools_ok (fun _ => inr initialized_request))
           "{}" initialized_request
           (mkRequest "2.0" (PyInt 2) "initialized" None) fresh_state);
    reflexivity.
Defined.

Lemma default_redis_url_skips_redis_witness :
  exists evs,
    trace (lifespan_startup (world no_env None None tools_ok loads_fails)
             fresh_state).2 = trace fresh_state ++ evs /\
    forallb (fun ev => negb (is_redis_event ev)) evs = true /\
    (forall c, NewDocumentationCache c ∈ evs ->
               c = DocumentationCache_new None) /\
    redis_client
      (globals (lifespan_startup (world no_env None None tools_ok loads_fails)
                  fresh_state).2) = None /\
    ((lifespan_startup (world no_env None None tools_ok loads_fails)
        fresh_state).1 = inr tt ->
     doc_cache
       (globals (lifespan_startup (world no_env None None tools_ok loads_fails)
                   fresh_state).2)
     = Some (DocumentationCache_new None)).
Proof.
  apply (default_redis_url_skips_redis
           (world no_env None None tools_ok loads_fails) fresh_state).
  - left. reflexivity.
  - reflexivity.
Defined.

Lemma redis_unreachable_startup_degrades_witness :
  exists evs,
    trace (lifespan_startup degraded_world fresh_state).2
    = trace fresh_state ++ evs /\
    redis_warning connection_refused ∈ evs /\
    NewFrameworkRegistryManager FrameworkRegistryManager_new ∈ evs /\
    (forall c, NewDocumentationCache c ∈ evs ->
               c = DocumentationCache_new None) /\
    redis_client (globals (lifespan_startup degraded_world fresh_state).2)
    = None /\
    (lifespan_startup degraded_world fresh_state).1
    = outcome (first_failure (later_answers degraded_world None)) /\
    ((lifespan_startup degraded_world fresh_state).1 = inr tt ->
     doc_cache (globals (lifespan_startup degraded_world fresh_state).2)
     = Some (DocumentationCache_new None)).
Proof.
  apply (redis_unreachable_startup_degrades degraded_world
           "redis://cache:6379/0" connection_refused fresh_state).
  - reflexivity.
  - discriminate.
  - left. reflexivity.
Defined.

Lemma registry_load_failure_is_fatal_witness :
  (lifespan_startup broken_catalog_world fresh_state).1
  = inl (Exc catalog_empty) /\
  lifespan broken_catalog_world (logger_info "serving") fresh_state
  = (inl (Exc catalog_empty),
     (lifespan_startup broken_catalog_world fresh_state).2) /\
  last (trace (lifespan_startup broken_catalog_world fresh_state).2)
  = Some (Log ERROR "Failed to initialize server: no frameworks in the catalog") /\
  doc_cache (globals (lifespan_startup broken_catalog_world fresh_state).2)
  = doc_cache (globals fresh_state).
Proof.
  apply (registry_load_failure_is_fatal broken_catalog_world catalog_empty
           (logger_info "serving") fresh_state);
    reflexivity.
Defined.

(** C9 does not hold as it is worded: the task is cancelled while
    [get_cache_stats] is awaited, and [process_message] raises the
    [CancelledError] instead of returning a response. *)
Lemma process_message_raises_cancellation :
  process_message cancelled_world (call_request 7 "get_cache_stats" [])
    fresh_state
  = (inl (Sig CancelledError),
     record (ToolCall (get_cache_statistics None)) fresh_state).
Proof. vm_compute. reflexivity. Qed.

(** The run of the degraded start in full, and some of the dispatcher. *)
Example degraded_startup_run :
  lifespan_startup degraded_world fresh_state
  = (inr tt,
     mkState
       (mkGlobals None (Some FrameworkRegistryManager_new)
          (Some (DocumentationCache_new None))
          (Some (GitHubProvider_new None)) (Some WebsiteProvider_new))
       [Log INFO "Starting MCP Web Server";
        RedisConnect (from_url "redis://cache:6379/0" "utf-8" true 5 5);
        Log WARNING
          ("Could not connect to Redis: Error 111 connecting to cache:6379. "
           +:+ "Connection refused., continuing without Redis");
        NewFrameworkRegistryManager FrameworkRegistryManager_new;
        RegistryInitialize FrameworkRegistryManager_new;
        NewDocumentationCache (DocumentationCache_new None);
        NewGitHubProvider (GitHubProvider_new None);
        NewWebsiteProvider WebsiteProvider_new;
        Log INFO "MCP Web Server initialized successfully"]).
Proof. vm_compute. reflexivity. Qed.

Example unknown_method_run :
  process_message (world no_env None None tools_ok loads_fails)
    (mkRequest "2.0" (PyInt 3) "resources/list" None) fresh_state
  = (inr (error_response (PyInt 3) (-32601) "Method not found: resources/list"),
     fresh_state).
Proof. vm_compute. reflexivity. Qed.

Example unknown_tool_run :
  (process_message (world no_env None None tools_ok loads_fails)
     (call_request 4 "delete_everything" []) fresh_state).1
  = inr (error_response (PyInt 4) (-32603) "Unknown tool: delete_everything").
Proof. vm_compute. reflexivity. Qed.

Example parse_error_run :
  (sse_generator (world no_env None None tools_ok loads_fails) "{" fresh_state).1
  = inr [sse_data (world no_env None None tools_ok loads_fails)
           (PyDict [("jsonrpc", PyStr "2.0"); ("id", PyNone);
                    ("result", PyNone);
                    ("error", PyDict (error_object (-32700)
                                        "Parse error: Expecting value"))])].
Proof. vm_compute. reflexivity. Qed.


(* ===================================================================== *)
(** * More on the dispatcher                                              *)
(* ===================================================================== *)

Section DispatcherFacts.

Variable W : World.

Lemma record_neq (ev : event) (s : State) : record ev s <> s.
Proof.
  intros Heq. apply (f_equal (fun x => length (trace x))) in Heq.
  unfold record in Heq. cbn [trace] in Heq. rewrite length_app in Heq.
  cbn [length] in Heq. lia.
Qed.

(** X1. [handle_tools_call] either raises before it has done anything, or
    awaits exactly one tool implementation, with the module globals as
    they are, and returns or raises what that one does. *)
Theorem handle_tools_call_one_call (params : option pydict) (s : State) :
  (exists e, handle_tools_call W params s = (inl (Exc e), s)) \/
  (exists tc,
     handle_tools_call W params s = (run_tool W tc, record (ToolCall tc) s) /\
     passes_globals (globals s) tc).
Proof. exact (handle_tools_call_cases W params s). Qed.

(** X2. How [process_message] answers a [tools/call]: when the dispatcher
    raises before it calls a tool the answer is error -32603 with the
    exception's message; otherwise one tool was awaited, its return
    value is the result of the response as it is, and its exception
    becomes error -32603 with its message.  What the tool raises that is
    no [Exception] is raised by [process_message] in turn. *)
Theorem tools_call_response (message : JsonRpcRequest) (s : State) :
  req_method message = "tools/call" ->
  (exists e,
     process_message W message s
     = (inr (error_response (req_id message) (-32603) (exn_str e)),
        record (Log ERROR ("Error processing message: " +:+ exn_str e)) s)) \/
  (exists tc,
     passes_globals (globals s) tc /\
     process_message W message s
     = match run_tool W tc with
       | inr v =>
           (inr (success_response (req_id message) v),
            record (ToolCall tc) s)
       | inl (Exc e) =>
           (inr (error_response (req_id message) (-32603) (exn_str e)),
            record (Log ERROR ("Error processing message: " +:+ exn_str e))
              (record (ToolCall tc) s))
       | inl (Sig b) => (inl (Sig b), record (ToolCall tc) s)
       end).
Proof.
  intros Hm.
  assert (Hh : handlers_get (METHOD_HANDLERS W) (req_method message)
               = Some (handle_tools_call W)) by (rewrite Hm; reflexivity).
  rewrite (process_message_handler W message _ s Hh).
  destruct (handle_tools_call_cases W (req_params message) s)
    as [[e ->] | (tc & -> & Hg)].
  - left. exists e. reflexivity.
  - right. exists tc. split; [exact Hg |].
    destruct (run_tool W tc) as [[e | b] | v]; reflexivity.
Qed.

(** X3. [process_message] leaves the module globals as they are and only
    adds to the record of what was done; it awaits at most one tool
    implementation, and none for a method other than [tools/call]. *)
Theorem process_message_effects (message : JsonRpcRequest) (s : State) :
  globals (process_message W message s).2 = globals s /\
  exists evs,
    trace (process_message W message s).2 = trace s ++ evs /\
    length (List.filter is_tool_call evs) <= 1 /\
    (req_method message <> "tools/call" -> List.filter is_tool_call evs = []).
Proof.
  destruct (handlers_get (METHOD_HANDLERS W) (req_method message))
    as [h |] eqn:Hh.
  - rewrite (process_message_handler W message h s Hh).
    destruct (handlers_get_cases W _ _ Hh)
      as [[Hm ->] | [[Hm ->] | [[Hm ->] | [[Hm ->] | [Hm ->]]]]].
    + cbn. split; [reflexivity |]. exists []. rewrite app_nil_r.
      split; [reflexivity |]. split; [cbn; lia | reflexivity].
    + cbn. split; [reflexivity |]. eexists.
      split; [reflexivity |]. split; [cbn; lia | reflexivity].
    + cbn. split; [reflexivity |]. exists []. rewrite app_nil_r.
      split; [reflexivity |]. split; [cbn; lia | reflexivity].
    + destruct (handle_tools_call_cases W (req_params message) s)
        as [[e ->] | (tc & -> & _)].
      * cbn. split; [reflexivity |]. eexists.
        split; [reflexivity |]. split; [cbn; lia | contradiction].
      * destruct (run_tool W tc) as [[e | b] | v]; cbn;
          (split; [reflexivity |]).
        -- rewrite <- app_assoc. eexists. split; [reflexivity |].
           split; [cbn; lia | contradiction].
        -- eexists. split; [reflexivity |].
           split; [cbn; lia | contradiction].
        -- eexists. split; [reflexivity |].
           split; [cbn; lia | contradiction].
    + cbn. split; [reflexivity |]. exists []. rewrite app_nil_r.
      split; [reflexivity |]. split; [cbn; lia | reflexivity].
  - rewrite (process_message_no_handler W message s Hh). cbn.
    split; [reflexivity |]. exists []. rewrite app_nil_r.
    split; [reflexivity |]. split; [cbn; lia | reflexivity].
Qed.

(** [process_message] ends with a response, which is a success or an
    error, or with what cut the awaited tool short. *)
Lemma process_message_response (message : JsonRpcRequest) (s : State) :
  (exists resp s',
     process_message W message s = (inr resp, s') /\
     globals s' = globals s /\
     ((exists v, resp = success_response (req_id message) v) \/
      (exists code msg, resp = error_response (req_id message) code msg))) \/
  (exists tc b,
     run_tool W tc = inl (Sig b) /\
     process_message W message s = (inl (Sig b), record (ToolCall tc) s)).
Proof.
  destruct (handlers_get (METHOD_HANDLERS W) (req_method message))
    as [h |] eqn:Hh.
  - rewrite (process_message_handler W message h s Hh).
    destruct (handler_cases W message h s Hh)
      as [(v & s1 & -> & Hg) | [(e & s1 & -> & Hg)
                                | (tc & b & _ & _ & Hb & ->)]].
    + left. eexists _, _. split; [reflexivity |].
      split; [exact Hg |]. left. eauto.
    + left. eexists _, _. split; [reflexivity |].
      split; [exact Hg |]. right. eauto.
    + right. eauto.
  - rewrite (process_message_no_handler W message s Hh).
    left. eexists _, _. split; [reflexivity |].
    split; [reflexivity |]. right. eauto.
Qed.

(** What is sent for a success and for an error of [process_message]:
    the fields that are not [None]. *)
Lemma model_dump_success (id v : pyval) :
  exists d,
    model_dump true (success_response id v) = PyDict d /\
    dict_get d "jsonrpc" = Some (PyStr "2.0") /\
    dict_get d "error" = None /\
    dict_get d "id" = not_none id /\
    dict_get d "result" = not_none v /\
    Forall (fun kv => kv.2 <> PyNone) d.
Proof.
  unfold model_dump, success_response.
  cbn [resp_jsonrpc resp_id resp_result resp_error].
  destruct id, v; cbn [List.filter snd negb];
    eexists; (split; [reflexivity |]);
    repeat split;
    try reflexivity;
    repeat constructor; discriminate.
Qed.

Lemma model_dump_error (id : pyval) (code : Z) (msg : string) :
  exists d,
    model_dump true (error_response id code msg) = PyDict d /\
    dict_get d "jsonrpc" = Some (PyStr "2.0") /\
    dict_get d "error" = Some (PyDict (error_object code msg)) /\
    dict_get d "id" = not_none id /\
    dict_get d "result" = None /\
    Forall (fun kv => kv.2 <> PyNone) d.
Proof.
  unfold model_dump, error_response.
  cbn [resp_jsonrpc resp_id resp_result resp_error].
  destruct id; cbn [List.filter snd negb];
    eexists; (split; [reflexivity |]);
    repeat split;
    try reflexivity;
    repeat constructor; discriminate.
Qed.

(** What is sent for a response of [process_message]. *)
Lemma response_sent (message : JsonRpcRequest) (resp : JsonRpcResponse) :
  ((exists v, resp = success_response (req_id message) v) \/
   (exists code msg, resp = error_response (req_id message) code msg)) ->
  exists d,
    (resp_result resp = PyNone \/ resp_error resp = None) /\
    model_dump true resp = PyDict d /\
    dict_get d "jsonrpc" = Some (PyStr "2.0") /\
    dict_get d "id" = not_none (req_id message) /\
    (dict_get d "result" = None \/ dict_get d "error" = None) /\
    Forall (fun kv => kv.2 <> PyNone) d.
Proof.
  intros [[v ->] | (code & msg & ->)].
  - destruct (model_dump_success (req_id message) v)
      as (d & Hd & Hj & He & Hi & Hr & Hall).
    exists d. repeat split; auto.
  - destruct (model_dump_error (req_id message) code msg)
      as (d & Hd & Hj & He & Hi & Hr & Hall).
    exists d. repeat split; auto.
Qed.

(** X4. A response of [process_message] never carries both a result and an
    error, and what is sent for it carries the request's id unless that
    is [None], no [None] at all, and at most one of the fields
    ["result"] and ["error"].  There is such a response unless the
    awaited tool raised what is no [Exception]. *)
Theorem response_result_or_error (message : JsonRpcRequest) (s : State) :
  (exists resp s' d,
     process_message W message s = (inr resp, s') /\
     (resp_result resp = PyNone \/ resp_error resp = None) /\
     model_dump true resp = PyDict d /\
     dict_get d "jsonrpc" = Some (PyStr "2.0") /\
     dict_get d "id" = not_none (req_id message) /\
     (dict_get d "result" = None \/ dict_get d "error" = None) /\
     Forall (fun kv => kv.2 <> PyNone) d) \/
  (exists tc b,
     run_tool W tc = inl (Sig b) /\
     process_message W message s = (inl (Sig b), record (ToolCall tc) s)).
Proof.
  destruct (process_message_response message s)
    as [(resp & s' & Hrun & _ & Hresp) | Hsig]; [left | right; exact Hsig].
  destruct (response_sent message resp Hresp) as (d & Hd).
  exists resp, s', d. split; [exact Hrun | exact Hd].
Qed.

End DispatcherFacts.

(* ===================================================================== *)
(** * The events sent                                                     *)
(* ===================================================================== *)

Section SseFacts.

Variable W : World.

(** A body that parses to a well-formed request is answered with what
    [process_message] answers, without its [None] fields; what
    [process_message] raises passes both [except] clauses. *)
Lemma sse_generator_request (request_body : string) (data : pyval)
    (request : JsonRpcRequest) (s : State) :
  json_loads W request_body = inr data ->
  JsonRpcRequest_new W data = inr request ->
  sse_generator W request_body s
  = match process_message W request s with
    | (inr resp, s') => (inr [sse_data W (model_dump true resp)], s')
    | (inl (Sig b), s') => (inl (Sig b), s')
    | (inl (Exc e), s') =>
        (inr [sse_data W
                (if String.eqb (exn_class e) "JSONDecodeError"
                 then sse_error_data (-32700) ("Parse error: " +:+ exn_str e)
                 else sse_error_data (-32603)
                        ("Internal error: " +:+ exn_str e))],
         s')
    end.
Proof.
  intros Hloads Hnew. unfold sse_generator, try_except, bind, lift.
  rewrite Hloads, Hnew.
  destruct (process_message W request s) as [[[e | b] | resp] s'];
    try reflexivity.
  destruct (String.eqb (exn_class e) "JSONDecodeError"); reflexivity.
Qed.

(** X5. A body that [json.loads] rejects is answered with error -32700 when
    the exception is a [JSONDecodeError] and with error -32603
    otherwise; the event carries every field, so ["id"] and ["result"]
    are there with [None], and nothing else has happened. *)
Theorem sse_generator_unparsable (request_body : string) (e : exn)
    (s : State) :
  json_loads W request_body = inl e ->
  sse_generator W request_body s
  = (inr [sse_data W
            (if String.eqb (exn_class e) "JSONDecodeError"
             then sse_error_data (-32700) ("Parse error: " +:+ exn_str e)
             else sse_error_data (-32603)
                    ("Internal error: " +:+ exn_str e))],
     s).
Proof.
  intros Hloads. unfold sse_generator, try_except, bind, lift.
  rewrite Hloads. destruct (String.eqb (exn_class e) "JSONDecodeError");
    reflexivity.
Qed.

Lemma JsonRpcRequest_new_error_class (data : pyval) (e : exn) :
  JsonRpcRequest_new W data = inl e ->
  exn_class e = "ValidationError" \/ exn_class e = "TypeError".
Proof.
  unfold JsonRpcRequest_new.
  destruct data; try (intros [= <-]; right; reflexivity).
  destruct (field_str_default items "jsonrpc" "2.0");
    [| intros [= <-]; left; reflexivity].
  destruct (field_str_required items "method");
    [| intros [= <-]; left; reflexivity].
  destruct (field_optional_dict items "params");
    [discriminate | intros [= <-]; left; reflexivity].
Qed.

(** X6. A body that parses but is not a well-formed request (not an object,
    no string [method], a [jsonrpc] that is not a string, [params] that
    are neither [None] nor an object) is answered with error -32603;
    the id of the request is not echoed, no handler has run and nothing
    is logged. *)
Theorem sse_generator_invalid_request (request_body : string) (data : pyval)
    (e : exn) (s : State) :
  json_loads W request_body = inr data ->
  JsonRpcRequest_new W data = inl e ->
  sse_generator W request_body s
  = (inr [sse_data W (sse_error_data (-32603)
                        ("Internal error: " +:+ exn_str e))], s).
Proof.
  intros Hloads Hnew. unfold sse_generator, try_except, bind, lift.
  rewrite Hloads, Hnew.
  destruct (JsonRpcRequest_new_error_class data e Hnew) as [-> | ->];
    reflexivity.
Qed.

(** X7. Whatever the body, [sse_generator] sends exactly one event: an
    object with ["jsonrpc": "2.0"] that never has an error beside a
    result other than [None], the module globals being as before;
    unless the tool that the request awaits raises what is no
    [Exception] (the cancellation of the task, for one): neither
    [except] clause catches that, the generator raises it and no event
    is sent. *)
Theorem sse_generator_event_or_signal (request_body : string) (s : State) :
  (exists d s',
     sse_generator W request_body s = (inr [sse_data W (PyDict d)], s') /\
     dict_get d "jsonrpc" = Some (PyStr "2.0") /\
     (dict_get d "error" = None \/ dict_get d "result" = None \/
      dict_get d "result" = Some PyNone) /\
     globals s' = globals s) \/
  (exists tc b,
     run_tool W tc = inl (Sig b) /\
     sse_generator W request_body s = (inl (Sig b), record (ToolCall tc) s)).
Proof.
  destruct (json_loads W request_body) as [e | data] eqn:Hloads.
  - left. unfold sse_generator, try_except, bind, lift. rewrite Hloads.
    destruct (String.eqb (exn_class e) "JSONDecodeError");
      eexists _, s; (split; [reflexivity |]);
      (split; [reflexivity |]); (split; [| reflexivity]);
      right; right; reflexivity.
  - destruct (JsonRpcRequest_new W data) as [e | request] eqn:Hnew.
    + left. unfold sse_generator, try_except, bind, lift.
      rewrite Hloads, Hnew.
      destruct (String.eqb (exn_class e) "JSONDecodeError");
        eexists _, s; (split; [reflexivity |]);
        (split; [reflexivity |]); (split; [| reflexivity]);
        right; right; reflexivity.
    + rewrite (sse_generator_request _ data request s Hloads Hnew).
      destruct (process_message_response W request s)
        as [(resp & s' & -> & Hg & Hresp) | (tc & b & Hb & ->)].
      * left.
        destruct (response_sent request resp Hresp)
          as (d & _ & Hd & Hj & _ & Hre & _).
        exists d, s'. rewrite Hd. split; [reflexivity |].
        split; [exact Hj |]. split; [tauto | exact Hg].
      * right. exists tc, b. split; [exact Hb | reflexivity].
Qed.

End SseFacts.

(* ===================================================================== *)
(** * The tool table and the dispatcher                                   *)
(* ===================================================================== *)

Section SchemaFacts.

Variable W : World.

(** The dispatcher's prelude, once the tool is named by a string. *)
Ltac enter_named Hn :=
  match type of Hn with
  | dict_get ?p "name" = Some _ =>
      let Hp := fresh "Hp" in
      assert (Hp : params_falsy (Some p) = false)
        by (destruct p; [discriminate | reflexivity]);
      unfold handle_tools_call, dict_mem;
      rewrite Hp; cbn [from_option id]; rewrite Hn;
      cbn [orb negb py_getitem]; rewrite Hn;
      unfold bind at 1, lift at 1; unfold bind at 1, get_globals at 1;
      cbv beta iota delta [py_eq_str String.eqb Ascii.eqb Bool.eqb]
  end.

(** Evaluate what the goal reads off the tool table. *)
Ltac eval_table :=
  repeat match goal with
         | |- context [required_arguments ?n] =>
             let r := eval vm_compute in (required_arguments n) in
             change (required_arguments n) with r
         | |- context [dict_keys (declared_properties ?n)] =>
             let r := eval vm_compute in (dict_keys (declared_properties n)) in
             change (dict_keys (declared_properties n)) with r
         | |- context [declared_default ?n ?k] =>
             let r := eval vm_compute in (declared_default n k) in
             change (declared_default n k) with r
         end.

Lemma advertised_names_dispatched : advertised_names = TOOL_NAMES.
Proof. vm_compute. reflexivity. Qed.

Lemma dispatch_named (p args : pydict) (name : string) (s : State) :
  dict_get p "name" = Some (PyStr name) ->
  tool_arguments p = PyDict args ->
  name ∈ advertised_names ->
  match first_missing args (required_arguments name) with
  | Some k => handle_tools_call W (Some p) s = (inl (Exc (KeyError k)), s)
  | None =>
      exists tc,
        handle_tools_call W (Some p) s
        = (run_tool W tc, record (ToolCall tc) s) /\
        tool_call_name tc = name /\
        dict_keys (kwargs tc) = dict_keys (declared_properties name) /\
        forall k,
          k ∈ dict_keys (declared_properties name) ->
          dict_get (kwargs tc) k
          = Some (default (declared_default name k) (dict_get args k))
  end.
Proof.
  intros Hn Hargs Hin. unfold tool_arguments in Hargs.
  rewrite advertised_names_dispatched in Hin. unfold TOOL_NAMES in Hin.
  repeat (apply elem_of_cons in Hin as [-> | Hin]);
    [.. | apply elem_of_nil in Hin; contradiction];
    enter_named Hn; rewrite Hargs; cbn [py_getitem py_get];
    eval_table; unfold first_missing, dict_mem; cbn [List.find];
    unfold bind, lift;
    repeat match goal with
           | |- context [dict_get args ?k] =>
               let H := fresh "Hk" in destruct (dict_get args k) eqn:H
           end;
    cbn [negb]; try reflexivity;
    (eexists; split; [apply call_tool_run |]; split; [reflexivity |];
     split; [reflexivity |];
     let Hmem := fresh "Hmem" in
     intros k Hmem;
     repeat (apply elem_of_cons in Hmem as [-> | Hmem]);
     [.. | apply elem_of_nil in Hmem; contradiction];
     eval_table;
     repeat match goal with
            | H : dict_get args _ = _ |- _ => rewrite H
            end;
     cbv beta iota delta [kwargs dict_get String.eqb Ascii.eqb Bool.eqb];
     reflexivity).
Qed.

Lemma record_inj (ev ev' : event) (s : State) :
  record ev s = record ev' s -> ev = ev'.
Proof.
  unfold record. intros [= Heq]. apply app_inj_tail in Heq as [_ Heq].
  exact Heq.
Qed.

(** X8. The ["required"] list that [tools/list] advertises for a tool is
    what the dispatcher requires: a call of an advertised tool whose
    arguments lack a required key raises [KeyError] for the first such
    key before anything is done, and a call that has them all reaches
    the tool of that name. *)
Theorem required_arguments_decide (p args : pydict) (name : string)
    (s : State) :
  dict_get p "name" = Some (PyStr name) ->
  tool_arguments p = PyDict args ->
  name ∈ advertised_names ->
  match first_missing args (required_arguments name) with
  | Some k => handle_tools_call W (Some p) s = (inl (Exc (KeyError k)), s)
  | None =>
      exists tc,
        handle_tools_call W (Some p) s
        = (run_tool W tc, record (ToolCall tc) s) /\
        tool_call_name tc = name
  end.
Proof.
  intros Hn Hargs Hin.
  pose proof (dispatch_named p args name s Hn Hargs Hin) as H.
  destruct (first_missing args (required_arguments name)); [exact H |].
  destruct H as (tc & Hrun & Hname & _). exists tc. split; assumption.
Qed.

(** X9. The properties that [tools/list] advertises for a tool are the
    keywords the dispatcher passes to it, in the same order: an
    argument the client gives is passed as it is, and one it omits is
    passed as the default the schema declares, or as [None] where the
    schema declares none. *)
Theorem arguments_passed_or_defaulted (p args : pydict) (name : string)
    (s : State) (tc : tool_call) :
  dict_get p "name" = Some (PyStr name) ->
  tool_arguments p = PyDict args ->
  name ∈ advertised_names ->
  handle_tools_call W (Some p) s = (run_tool W tc, record (ToolCall tc) s) ->
  dict_keys (kwargs tc) = dict_keys (declared_properties name) /\
  forall k,
    k ∈ dict_keys (declared_properties name) ->
    dict_get (kwargs tc) k
    = Some (default (declared_default name k) (dict_get args k)).
Proof.
  intros Hn Hargs Hin Hrun.
  pose proof (dispatch_named p args name s Hn Hargs Hin) as H.
  destruct (first_missing args (required_arguments name)).
  - rewrite H in Hrun.
    assert (Hs : record (ToolCall tc) s = s) by congruence.
    apply record_neq in Hs. contradiction.
  - destruct H as (tc' & Hrun' & _ & Hkeys & Hvals).
    rewrite Hrun' in Hrun.
    assert (Hs : record (ToolCall tc') s = record (ToolCall tc) s)
      by congruence.
    apply record_inj in Hs. injection Hs as ->. split; assumption.
Qed.

Lemma is_tool_name_advertised (v : pyval) :
  is_tool_name v = true <-> v ∈ PyStr <$> advertised_names.
Proof.
  rewrite advertised_names_dispatched. unfold is_tool_name.
  rewrite existsb_exists. split.
  - intros (n & Hin & Heq). destruct v; try discriminate.
    cbn [py_eq_str] in Heq. apply String.eqb_eq in Heq as ->.
    apply list_elem_of_fmap_2, list_elem_of_In, Hin.
  - intros Hin. apply list_elem_of_fmap in Hin as (n & -> & Hin).
    exists n. split; [apply list_elem_of_In, Hin |].
    cbn [py_eq_str]. apply String.eqb_refl.
Qed.

(** X10. The dispatcher answers "Unknown tool" exactly for the names that
    [tools/list] does not advertise: every advertised tool has a branch
    in it, and it has no branch for anything else. *)
Theorem unknown_tool_iff_not_advertised (p : pydict) (v : pyval)
    (s : State) :
  dict_get p "name" = Some v ->
  handle_tools_call W (Some p) s
  = (inl (Exc (ValueError ("Unknown tool: " +:+ py_str W v))), s)
  <-> v ∉ PyStr <$> advertised_names.
Proof.
  intros Hn. split.
  - intros Hrun Hin. apply list_elem_of_fmap in Hin as (name & -> & Hin).
    remember (handle_tools_call W (Some p) s) as r eqn:Hr.
    rewrite advertised_names_dispatched in Hin. unfold TOOL_NAMES in Hin.
    assert (Hp : params_falsy (Some p) = false)
      by (destruct p; [discriminate | reflexivity]).
    unfold handle_tools_call, dict_mem in Hr.
    rewrite Hp in Hr. cbn [from_option id] in Hr. rewrite Hn in Hr.
    cbn [orb negb py_getitem] in Hr. rewrite Hn in Hr.
    unfold bind at 1, lift at 1 in Hr.
    unfold bind at 1, get_globals at 1 in Hr.
    repeat (apply elem_of_cons in Hin as [-> | Hin]);
      [.. | apply elem_of_nil in Hin; contradiction];
      cbv beta iota delta [py_eq_str String.eqb Ascii.eqb Bool.eqb] in Hr;
      unfold bind, lift in Hr;
      repeat match type of Hr with
             | context [py_getitem ?a ?k] =>
                 let H := fresh "Hk" in destruct (py_getitem a k) eqn:H
             | context [py_get ?a ?k ?d] =>
                 let H := fresh "Hk" in destruct (py_get a k d) eqn:H
             end;
      rewrite Hrun in Hr;
      try (rewrite call_tool_run in Hr;
           match type of Hr with
           | _ = (_, record ?ev s) =>
               assert (Hs : record ev s = s) by congruence;
               apply record_neq in Hs; contradiction
           end);
      injection Hr as <-;
      repeat match goal with
             | H : py_getitem ?a _ = inl _ |- _ =>
                 destruct a; cbn [py_getitem] in H;
                 try match type of H with
                     | context [dict_get ?d ?k] => destruct (dict_get d k)
                     end;
                 discriminate H
             | H : py_get ?a _ _ = inl _ |- _ =>
                 destruct a; cbn [py_get] in H;
                 try match type of H with
                     | context [dict_get ?d ?k] => destruct (dict_get d k)
                     end;
                 discriminate H
             end.
  - intros Hout. apply handle_tools_call_unknown; [exact Hn |].
    destruct (is_tool_name v) eqn:Hk; [| reflexivity].
    apply is_tool_name_advertised in Hk. contradiction.
Qed.

(** X11. When ["arguments"] is given and is not an object ([null], a list, a
    string, ...), the tools that take no argument are called all the
    same; the others raise before anything is done: [TypeError] from
    the subscript of the first required argument where the tool has
    one, [AttributeError] from [.get] where all its arguments are
    optional. *)
Theorem arguments_not_an_object (p : pydict) (name : string) (v : pyval)
    (s : State) :
  dict_get p "name" = Some (PyStr name) ->
  dict_get p "arguments" = Some v ->
  (forall d, v <> PyDict d) ->
  name ∈ advertised_names ->
  match declared_properties name, required_arguments name with
  | [], _ =>
      exists tc,
        handle_tools_call W (Some p) s
        = (run_tool W tc, record (ToolCall tc) s) /\
        tool_call_name tc = name
  | _ :: _, [] =>
      handle_tools_call W (Some p) s = (inl (Exc (AttributeError_get v)), s)
  | _ :: _, _ :: _ =>
      handle_tools_call W (Some p) s = (inl (Exc (TypeError_subscript v)), s)
  end.
Proof.
  intros Hn Hargs Hv Hin.
  rewrite advertised_names_dispatched in Hin. unfold TOOL_NAMES in Hin.
  repeat (apply elem_of_cons in Hin as [-> | Hin]);
    [.. | apply elem_of_nil in Hin; contradiction];
    enter_named Hn; rewrite Hargs; cbn [from_option id];
    match goal with
    | |- context [declared_properties ?n] =>
        let r := eval vm_compute in (declared_properties n) in
        change (declared_properties n) with r
    end;
    eval_table; cbv iota;
    try (eexists; split; [apply call_tool_run | reflexivity]);
    destruct v; try (exfalso; eapply Hv; reflexivity); reflexivity.
Qed.

End SchemaFacts.

(* ===================================================================== *)
(** * More on the lifecycle                                               *)
(* ===================================================================== *)

Section LifecycleFacts.

Variable W : World.

Lemma init_redis_returns (s : State) :
  exists s1, init_redis W s = (inr tt, s1).
Proof.
  unfold init_redis. destruct (negb _); [| eexists; reflexivity].
  unfold try_except, bind, perform, modify_globals, logger_info,
    logger_warning, emit.
  destruct (redis_connect W _); [eexists; reflexivity |].
  cbn [globals trace]. destruct (redis_ping W _); eexists; reflexivity.
Qed.

Lemma init_registry_and_providers_ok (s : State) :
  first_failure (later_answers W (redis_client (globals s))) = None ->
  init_registry_and_providers W s
  = (inr tt,
     mkState
       (mkGlobals (redis_client (globals s))
          (Some FrameworkRegistryManager_new)
          (Some (DocumentationCache_new (redis_client (globals s))))
          (Some (GitHubProvider_new (getenv W "GITHUB_TOKEN")))
          (Some WebsiteProvider_new))
       (trace s ++
        [NewFrameworkRegistryManager FrameworkRegistryManager_new;
         RegistryInitialize FrameworkRegistryManager_new;
         NewDocumentationCache
           (DocumentationCache_new (redis_client (globals s)));
         NewGitHubProvider (GitHubProvider_new (getenv W "GITHUB_TOKEN"));
         NewWebsiteProvider WebsiteProvider_new;
         Log INFO "MCP Web Server initialized successfully"])).
Proof.
  unfold later_answers, init_registry_and_providers, bind, perform,
    modify_globals, get_globals, logger_info, emit.
  cbn [first_failure globals trace redis_client set_registry_manager
       set_doc_cache set_github_provider set_website_provider].
  destruct (registry_init W _); [discriminate |].
  destruct (registry_initialize W _); [discriminate |].
  destruct (cache_init W _); [discriminate |].
  destruct (github_init W _); [discriminate |].
  destruct (website_init W _); [discriminate |].
  intros _. cbn [globals trace redis_client registry_manager doc_cache
                 github_provider website_provider].
  rewrite <- !app_assoc. reflexivity.
Qed.

(** What the startup leaves when it succeeds. *)
Lemma startup_ready (s : State) :
  (lifespan_startup W s).1 = inr tt ->
  registry_manager (globals (lifespan_startup W s).2)
  = Some FrameworkRegistryManager_new /\
  doc_cache (globals (lifespan_startup W s).2)
  = Some (DocumentationCache_new
            (redis_client (globals (lifespan_startup W s).2))) /\
  github_provider (globals (lifespan_startup W s).2)
  = Some (GitHubProvider_new (getenv W "GITHUB_TOKEN")) /\
  website_provider (globals (lifespan_startup W s).2)
  = Some WebsiteProvider_new /\
  last (trace (lifespan_startup W s).2)
  = Some (Log INFO "MCP Web Server initialized successfully").
Proof.
  rewrite lifespan_startup_run.
  destruct (init_redis_returns (record (Log INFO "Starting MCP Web Server") s))
    as [s1 ->].
  destruct (init_registry_and_providers_spec W s1)
    as (evs & _ & _ & _ & _ & _ & Hout & _).
  destruct (first_failure (later_answers W (redis_client (globals s1))))
    as [e |] eqn:Hff.
  - destruct (init_registry_and_providers W s1) as [[r | []] s2];
      cbn [fst snd outcome] in *;
      [injection Hout as ->; cbn [fst]; discriminate | discriminate].
  - rewrite (init_registry_and_providers_ok s1 Hff). cbn [fst snd].
    intros _. cbn [globals trace registry_manager doc_cache redis_client
                   github_provider website_provider].
    repeat split. rewrite last_app_cons. reflexivity.
Qed.

(** X12. When [lifespan] reaches its [yield], every global the handlers pass
    to the tools is set: the registry, the documentation cache, built
    over the very Redis client the global holds, and both providers;
    the last thing logged is the success. *)
Theorem startup_ready_initialized (s : State) :
  (lifespan_startup W s).1 = inr tt ->
  registry_manager (globals (lifespan_startup W s).2)
  = Some FrameworkRegistryManager_new /\
  doc_cache (globals (lifespan_startup W s).2)
  = Some (DocumentationCache_new
            (redis_client (globals (lifespan_startup W s).2))) /\
  github_provider (globals (lifespan_startup W s).2)
  = Some (GitHubProvider_new (getenv W "GITHUB_TOKEN")) /\
  website_provider (globals (lifespan_startup W s).2)
  = Some WebsiteProvider_new /\
  last (trace (lifespan_startup W s).2)
  = Some (Log INFO "MCP Web Server initialized successfully").
Proof. exact (startup_ready s). Qed.

(** The startup in front of a Redis server that answers. *)
Lemma redis_reachable_startup (u : string) (s : State) :
  getenv W "REDIS_URL" = Some u ->
  u <> "redis://localhost:6379/0" ->
  redis_connect W (from_url u "utf-8" true 5 5) = None ->
  redis_ping W (from_url u "utf-8" true 5 5) = None ->
  exists evs,
    trace (lifespan_startup W s).2 = trace s ++ evs /\
    RedisConnect (from_url u "utf-8" true 5 5) ∈ evs /\
    RedisPing (from_url u "utf-8" true 5 5) ∈ evs /\
    Log INFO "Connected to Redis" ∈ evs /\
    (forall c, RedisClose c ∉ evs) /\
    (forall dc, NewDocumentationCache dc ∈ evs ->
                dc = DocumentationCache_new
                       (Some (from_url u "utf-8" true 5 5))) /\
    redis_client (globals (lifespan_startup W s).2)
    = Some (from_url u "utf-8" true 5 5) /\
    (lifespan_startup W s).1
    = outcome (first_failure
                 (later_answers W (Some (from_url u "utf-8" true 5 5)))).
Proof.
  intros Henv Hne Hconnect Hping. rewrite lifespan_startup_run.
  set (c := from_url u "utf-8" true 5 5) in *.
  set (s0 := record (Log INFO "Starting MCP Web Server") s).
  assert (Hredis : init_redis W s0
                   = (inr tt,
                      mkState (set_redis_client (Some c) (globals s0))
                        (trace s0 ++ [RedisConnect c; RedisPing c;
                                      Log INFO "Connected to Redis"]))).
  { unfold init_redis, get_redis_url. rewrite Henv. cbn [from_option id].
    destruct (String.eqb_spec u "redis://localhost:6379/0") as [? | _];
      [contradiction |].
    cbn [negb]. unfold try_except, bind, perform, modify_globals,
      logger_info, emit. fold c. rewrite Hconnect. cbn [globals trace].
    rewrite Hping. cbn [globals trace]. rewrite <- !app_assoc. reflexivity. }
  rewrite Hredis. set (s1 := mkState _ (trace s0 ++ _)).
  destruct (init_registry_and_providers_spec W s1)
    as (evs & Htr & Hnr & _ & Hdc & Hrcl & Hout & _).
  change (redis_client (globals s1)) with (Some c) in *.
  assert (Hnoclose : forall c', RedisClose c' ∉ evs).
  { intros c' Hin. rewrite forallb_forall in Hnr.
    apply list_elem_of_In, Hnr in Hin. discriminate Hin. }
  destruct (init_registry_and_providers W s1) as [[r | []] s2];
    cbn [fst snd] in *; [destruct (outcome_raises _ _ Hout) as [e' ->] |];
    subst s1 s0; unfold record in *;
    cbn [globals trace] in *;
    rewrite Htr; rewrite <- ?app_assoc; cbn [app];
    (eexists; split; [reflexivity |]);
    (split; [set_solver |]); (split; [set_solver |]);
    (split; [set_solver |]).
  - split; [intros c' Hin; pose proof (Hnoclose c'); set_solver |].
    split; [| split; [exact Hrcl | exact Hout]].
    intros dc Hin. apply Hdc. set_solver.
  - split; [intros c' Hin; pose proof (Hnoclose c'); set_solver |].
    split; [| split; [exact Hrcl | exact Hout]].
    intros dc Hin. apply Hdc. set_solver.
Qed.

(** X13. With a Redis URL configured and the Redis server answering, the
    client is connected and pinged, it is the client the global holds
    and the documentation cache is built over it; the startup closes no
    client, and its outcome is decided by the later collaborators. *)
Theorem redis_reachable_startup_shares_client (u : string) (s : State) :
  getenv W "REDIS_URL" = Some u ->
  u <> "redis://localhost:6379/0" ->
  redis_connect W (from_url u "utf-8" true 5 5) = None ->
  redis_ping W (from_url u "utf-8" true 5 5) = None ->
  exists evs,
    trace (lifespan_startup W s).2 = trace s ++ evs /\
    RedisConnect (from_url u "utf-8" true 5 5) ∈ evs /\
    RedisPing (from_url u "utf-8" true 5 5) ∈ evs /\
    Log INFO "Connected to Redis" ∈ evs /\
    (forall c, RedisClose c ∉ evs) /\
    (forall dc, NewDocumentationCache dc ∈ evs ->
                dc = DocumentationCache_new
                       (Some (from_url u "utf-8" true 5 5))) /\
    redis_client (globals (lifespan_startup W s).2)
    = Some (from_url u "utf-8" true 5 5) /\
    (lifespan_startup W s).1
    = outcome (first_failure
                 (later_answers W (Some (from_url u "utf-8" true 5 5)))).
Proof. exact (redis_reachable_startup u s). Qed.

(** X14. With the Redis URL at its default the startup leaves the global
    client as it finds it, whatever that is, and builds the
    documentation cache over it: a client left in the global by an
    earlier run of [lifespan] is used again. *)
Theorem default_redis_url_keeps_global_client (s : State) :
  redis_url_is_default W ->
  redis_client (globals (lifespan_startup W s).2) = redis_client (globals s) /\
  exists evs,
    trace (lifespan_startup W s).2 = trace s ++ evs /\
    forallb (fun ev => negb (is_redis_event ev)) evs = true /\
    (forall dc, NewDocumentationCache dc ∈ evs ->
                dc = DocumentationCache_new (redis_client (globals s))) /\
    (lifespan_startup W s).1
    = outcome (first_failure (later_answers W (redis_client (globals s)))).
Proof.
  intros Hurl. rewrite lifespan_startup_run.
  rewrite (init_redis_default W _ Hurl).
  set (s1 := record (Log INFO "Starting MCP Web Server") s).
  destruct (init_registry_and_providers_spec W s1)
    as (evs & Htr & Hnr & _ & Hdc & Hrcl & Hout & _).
  change (redis_client (globals s1)) with (redis_client (globals s)) in *.
  destruct (init_registry_and_providers W s1) as [[r | []] s2];
    cbn [fst snd] in *; [destruct (outcome_raises _ _ Hout) as [e ->] |];
    subst s1; unfold record in *;
    cbn [globals trace] in *;
    (split; [exact Hrcl |]);
    rewrite Htr; rewrite <- ?app_assoc; cbn [app];
    (eexists; split; [reflexivity |]).
  - split; [cbn [forallb is_redis_event negb andb]; rewrite forallb_app, Hnr;
            reflexivity |].
    split; [| exact Hout]. intros dc Hin. apply Hdc. set_solver.
  - split; [cbn [forallb is_redis_event negb andb]; exact Hnr |].
    split; [| exact Hout]. intros dc Hin. apply Hdc. set_solver.
Qed.

(** X15. What follows the [yield]: when the application raises, the shutdown
    code does not run and no client is closed; when it returns, the
    shutdown is logged and the client the global holds, if any, is
    closed and left in the global, an exception of [close] being raised
    to the caller. *)
Theorem lifespan_after_yield (serving : M unit) (s s1 : State) :
  lifespan_startup W s = (inr tt, s1) ->
  lifespan W serving s =
    match serving s1 with
    | (inl e, s2) => (inl e, s2)
    | (inr _, s2) =>
        match redis_client (globals s2) with
        | Some c =>
            (outcome (redis_close W c),
             mkState (globals s2)
               (trace s2 ++ [Log INFO "Shutting down MCP Web Server";
                             RedisClose c]))
        | None =>
            (inr tt,
             mkState (globals s2)
               (trace s2 ++ [Log INFO "Shutting down MCP Web Server"]))
        end
    end.
Proof.
  intros Hstart. unfold lifespan, bind at 1. rewrite Hstart.
  unfold bind at 1. destruct (serving s1) as [[e | []] s2]; [reflexivity |].
  unfold lifespan_shutdown, bind, logger_info, emit, get_globals, perform.
  cbn [globals trace]. destruct (redis_client (globals s2)) as [c |];
    [| reflexivity].
  destruct (redis_close W c); cbn [globals trace outcome];
    rewrite <- app_assoc; reflexivity.
Qed.

(** X16. When a later step of the startup fails after the Redis client was
    connected, [lifespan] raises that failure and the application never
    runs; the client stays in the global and nothing closes it. *)
Theorem failed_startup_leaves_client_open (u : string) (e : exn)
    (serving : M unit) (s : State) :
  getenv W "REDIS_URL" = Some u ->
  u <> "redis://localhost:6379/0" ->
  redis_connect W (from_url u "utf-8" true 5 5) = None ->
  redis_ping W (from_url u "utf-8" true 5 5) = None ->
  first_failure (later_answers W (Some (from_url u "utf-8" true 5 5)))
  = Some e ->
  exists evs,
    (lifespan W serving s).1 = inl (Exc e) /\
    trace (lifespan W serving s).2 = trace s ++ evs /\
    RedisConnect (from_url u "utf-8" true 5 5) ∈ evs /\
    (forall c, RedisClose c ∉ evs) /\
    redis_client (globals (lifespan W serving s).2)
    = Some (from_url u "utf-8" true 5 5).
Proof.
  intros Henv Hne Hconnect Hping Hfail.
  destruct (redis_reachable_startup u s Henv Hne Hconnect Hping)
    as (evs & Htr & Hc & _ & _ & Hnoclose & _ & Hrc & Hout).
  rewrite Hfail in Hout. cbn [outcome] in Hout.
  assert (Hrun : lifespan W serving s = lifespan_startup W s).
  { unfold lifespan, bind at 1.
    destruct (lifespan_startup W s) as [[r | []] s1];
      [reflexivity | discriminate Hout]. }
  rewrite Hrun. exists evs. repeat split; assumption.
Qed.

(** X17. Once [lifespan] has reached its [yield], a tool that the dispatcher
    reaches is given the registry, the cache and the providers that the
    startup created. *)
Theorem ready_server_passes_collaborators (s s1 : State)
    (params : option pydict) (tc : tool_call) :
  lifespan_startup W s = (inr tt, s1) ->
  handle_tools_call W params s1 = (run_tool W tc, record (ToolCall tc) s1) ->
  passes_globals
    (mkGlobals (redis_client (globals s1))
       (Some FrameworkRegistryManager_new)
       (Some (DocumentationCache_new (redis_client (globals s1))))
       (Some (GitHubProvider_new (getenv W "GITHUB_TOKEN")))
       (Some WebsiteProvider_new))
    tc.
Proof.
  intros Hstart Hrun.
  pose proof (startup_ready s) as Hready.
  rewrite Hstart in Hready. cbn [fst snd] in Hready.
  destruct (Hready eq_refl) as (Hr & Hc & Hg & Hw & _).
  destruct (handle_tools_call_cases W params s1)
    as [[e He] | (tc' & Hrun' & Hpass)].
  - rewrite He in Hrun.
    assert (Hs : record (ToolCall tc) s1 = s1) by congruence.
    apply record_neq in Hs. contradiction.
  - rewrite Hrun' in Hrun.
    assert (Hs : record (ToolCall tc') s1 = record (ToolCall tc) s1)
      by congruence.
    apply record_inj in Hs. injection Hs as ->.
    destruct tc; cbn [passes_globals registry_manager doc_cache
                      github_provider website_provider] in *;
      rewrite <- ?Hr, <- ?Hc, <- ?Hg, <- ?Hw; exact Hpass.
Qed.

End LifecycleFacts.

(* ===================================================================== *)
(** * More runs in concrete worlds                                        *)
(* ===================================================================== *)

Lemma tools_call_response_witness :
  (exists e,
     process_message (world no_env None None tools_fail loads_fails)
       (call_request 7 "get_cache_stats" []) fresh_state
     = (inr (error_response (PyInt 7) (-32603) (exn_str e)),
        record (Log ERROR ("Error processing message: " +:+ exn_str e))
          fresh_state)) \/
  (exists tc,
     passes_globals (globals fresh_state) tc /\
     process_message (world no_env None None tools_fail loads_fails)
       (call_request 7 "get_cache_stats" []) fresh_state
     = match run_tool (world no_env None None tools_fail loads_fails) tc with
       | inr v =>
           (inr (success_response (PyInt 7) v),
            record (ToolCall tc) fresh_state)
       | inl (Exc e) =>
           (inr (error_response (PyInt 7) (-32603) (exn_str e)),
            record (Log ERROR ("Error processing message: " +:+ exn_str e))
              (record (ToolCall tc) fresh_state))
       | inl (Sig b) => (inl (Sig b), record (ToolCall tc) fresh_state)
       end).
Proof.
  apply (tools_call_response (world no_env None None tools_fail loads_fails)
           (call_request 7 "get_cache_stats" []) fresh_state).
  reflexivity.
Defined.

Lemma sse_generator_unparsable_witness :
  sse_generator (world no_env None None tools_ok loads_fails) "{" fresh_state
  = (inr [sse_data (world no_env None None tools_ok loads_fails)
            (sse_error_data (-32700) "Parse error: Expecting value")],
     fresh_state).
Proof.
  apply (sse_generator_unparsable
           (world no_env None None tools_ok loads_fails) "{"
           (Exn "JSONDecodeError" "Expecting value") fresh_state).
  reflexivity.
Defined.

Lemma sse_generator_invalid_request_witness :
  sse_generator
    (world no_env None None tools_ok (loads_to no_method_request))
    "{}" fresh_state
  = (inr [sse_data
            (world no_env None None tools_ok (loads_to no_method_request))
            (sse_error_data (-32603) "Internal error: ")],
     fresh_state).
Proof.
  apply (sse_generator_invalid_request
           (world no_env None None tools_ok (loads_to no_method_request))
           "{}" no_method_request (Exn "ValidationError" "") fresh_state);
    reflexivity.
Defined.

Lemma required_arguments_decide_witness :
  handle_tools_call (world no_env None None tools_ok loads_fails)
    (Some (call_params "search_documentation"
             (PyDict [("framework", PyStr "react")])))
    fresh_state
  = (inl (Exc (KeyError "query")), fresh_state).
Proof.
  apply (required_arguments_decide
           (world no_env None None tools_ok loads_fails)
           (call_params "search_documentation"
              (PyDict [("framework", PyStr "react")]))
           [("framework", PyStr "react")] "search_documentation" fresh_state).
  - reflexivity.
  - reflexivity.
  - rewrite advertised_names_dispatched. unfold TOOL_NAMES.
    do 5 right. left.
Defined.

Lemma arguments_passed_or_defaulted_witness :
  dict_keys (kwargs (refresh_framework_cache None None None None
                       PyNone (PyBool false)))
  = dict_keys (declared_properties "refresh_framework_cache") /\
  forall k,
    k ∈ dict_keys (declared_properties "refresh_framework_cache") ->
    dict_get (kwargs (refresh_framework_cache None None None None
                        PyNone (PyBool false))) k
    = Some (default (declared_default "refresh_framework_cache" k)
              (dict_get [] k)).
Proof.
  apply (arguments_passed_or_defaulted
           (world no_env None None tools_ok loads_fails)
           (call_params "refresh_framework_cache" (PyDict []))
           [] "refresh_framework_cache" fresh_state).
  - reflexivity.
  - reflexivity.
  - rewrite advertised_names_dispatched. unfold TOOL_NAMES.
    do 9 right. left.
  - reflexivity.
Defined.

Lemma unknown_tool_iff_not_advertised_witness :
  handle_tools_call (world no_env None None tools_ok loads_fails)
    (Some (call_params "get_cache_statistics" (PyDict []))) fresh_state
  = (inl (Exc (ValueError
                 ("Unknown tool: " +:+
                  py_str (world no_env None None tools_ok loads_fails)
                    (PyStr "get_cache_statistics")))), fresh_state)
  <-> PyStr "get_cache_statistics" ∉ PyStr <$> advertised_names.
Proof.
  apply (unknown_tool_iff_not_advertised
           (world no_env None None tools_ok loads_fails)
           (call_params "get_cache_statistics" (PyDict []))
           (PyStr "get_cache_statistics") fresh_state).
  reflexivity.
Defined.

Lemma arguments_not_an_object_witness :
  handle_tools_call (world no_env None None tools_ok loads_fails)
    (Some (call_params "list_available_frameworks" PyNone)) fresh_state
  = (inl (Exc (AttributeError_get PyNone)), fresh_state).
Proof.
  apply (arguments_not_an_object
           (world no_env None None tools_ok loads_fails)
           (call_params "list_available_frameworks" PyNone)
           "list_available_frameworks" PyNone fresh_state).
  - reflexivity.
  - reflexivity.
  - discriminate.
  - rewrite advertised_names_dispatched. unfold TOOL_NAMES. left.
Defined.

Lemma startup_ready_initialized_witness :
  registry_manager (globals (lifespan_startup connected_world fresh_state).2)
  = Some FrameworkRegistryManager_new /\
  doc_cache (globals (lifespan_startup connected_world fresh_state).2)
  = Some (DocumentationCache_new
            (redis_client
               (globals (lifespan_startup connected_world fresh_state).2))) /\
  github_provider (globals (lifespan_startup connected_world fresh_state).2)
  = Some (GitHubProvider_new (getenv connected_world "GITHUB_TOKEN")) /\
  website_provider (globals (lifespan_startup connected_world fresh_state).2)
  = Some WebsiteProvider_new /\
  last (trace (lifespan_startup connected_world fresh_state).2)
  = Some (Log INFO "MCP Web Server initialized successfully").
Proof.
  apply (startup_ready_initialized connected_world fresh_state).
  reflexivity.
Defined.

Lemma redis_reachable_startup_shares_client_witness :
  exists evs,
    trace (lifespan_startup connected_world fresh_state).2
    = trace fresh_state ++ evs /\
    RedisConnect cache_client ∈ evs /\
    RedisPing cache_client ∈ evs /\
    Log INFO "Connected to Redis" ∈ evs /\
    (forall c, RedisClose c ∉ evs) /\
    (forall dc, NewDocumentationCache dc ∈ evs ->
                dc = DocumentationCache_new (Some cache_client)) /\
    redis_client (globals (lifespan_startup connected_world fresh_state).2)
    = Some cache_client /\
    (lifespan_startup connected_world fresh_state).1
    = outcome (first_failure
                 (later_answers connected_world (Some cache_client))).
Proof.
  apply (redis_reachable_startup_shares_client connected_world
           "redis://cache:6379/0" fresh_state).
  - reflexivity.
  - discriminate.
  - reflexivity.
  - reflexivity.
Defined.

Lemma failed_startup_leaves_client_open_witness :
  exists evs,
    (lifespan leaky_world (logger_info "serving") fresh_state).1
    = inl (Exc catalog_empty) /\
    trace (lifespan leaky_world (logger_info "serving") fresh_state).2
    = trace fresh_state ++ evs /\
    RedisConnect cache_client ∈ evs /\
    (forall c, RedisClose c ∉ evs) /\
    redis_client
      (globals (lifespan leaky_world (logger_info "serving") fresh_state).2)
    = Some cache_client.
Proof.
  apply (failed_startup_leaves_client_open leaky_world
           "redis://cache:6379/0" catalog_empty (logger_info "serving")
           fresh_state).
  - reflexivity.
  - discriminate.
  - reflexivity.
  - reflexivity.
  - reflexivity.
Defined.

Lemma default_redis_url_keeps_global_client_witness :
  redis_client
    (globals (lifespan_startup (world no_env None None tools_ok loads_fails)
                restarted_state).2)
  = redis_client (globals restarted_state) /\
  exists evs,
    trace (lifespan_startup (world no_env None None tools_ok loads_fails)
             restarted_state).2 = trace restarted_state ++ evs /\
    forallb (fun ev => negb (is_redis_event ev)) evs = true /\
    (forall dc, NewDocumentationCache dc ∈ evs ->
                dc = DocumentationCache_new
                       (redis_client (globals restarted_state))) /\
    (lifespan_startup (world no_env None None tools_ok loads_fails)
       restarted_state).1
    = outcome (first_failure
                 (later_answers (world no_env None None tools_ok loads_fails)
                    (redis_client (globals restarted_state)))).
Proof.
  apply (default_redis_url_keeps_global_client
           (world no_env None None tools_ok loads_fails) restarted_state).
  left. reflexivity.
Defined.

Lemma lifespan_after_yield_witness :
  lifespan connected_world (logger_info "serving") fresh_state
  = match logger_info "serving"
            (lifespan_startup connected_world fresh_state).2 with
    | (inl e, s2) => (inl e, s2)
    | (inr _, s2) =>
        match redis_client (globals s2) with
        | Some c =>
            (outcome (redis_close connected_world c),
             mkState (globals s2)
               (trace s2 ++ [Log INFO "Shutting down MCP Web Server";
                             RedisClose c]))
        | None =>
            (inr tt,
             mkState (globals s2)
               (trace s2 ++ [Log INFO "Shutting down MCP Web Server"]))
        end
    end.
Proof.
  apply (lifespan_after_yield connected_world (logger_info "serving")
           fresh_state).
  reflexivity.
Defined.

Lemma ready_server_passes_collaborators_witness :
  passes_globals
    (mkGlobals
       (redis_client (globals (lifespan_startup connected_world fresh_state).2))
       (Some FrameworkRegistryManager_new)
       (Some (DocumentationCache_new
                (redis_client
                   (globals (lifespan_startup connected_world fresh_state).2))))
       (Some (GitHubProvider_new (getenv connected_world "GITHUB_TOKEN")))
       (Some WebsiteProvider_new))
    (get_cache_statistics
       (Some (DocumentationCache_new (Some cache_client)))).
Proof.
  apply (ready_server_passes_collaborators connected_world fresh_state
           (lifespan_startup connected_world fresh_state).2
           (Some (call_params "get_cache_stats" (PyDict [])))
           (get_cache_statistics
              (Some (DocumentationCache_new (Some cache_client)))));
    reflexivity.
Defined.

(** The task is cancelled while the tool of a request is awaited: the
    generator raises and sends nothing. *)
Example cancelled_sse_run :
  sse_generator
    (world no_env None None tools_cancelled (loads_to cache_stats_request))
    "{}" fresh_state
  = (inl (Sig CancelledError),
     record (ToolCall (get_cache_statistics None)) fresh_state).
Proof. vm_compute. reflexivity. Qed.

(** The whole life of a server with Redis: connected, pinged, shared
    with the cache, and closed after the application returned. *)
Example connected_lifespan_run :
  lifespan connected_world (logger_info "serving") fresh_state
  = (inr tt,
     mkState
       (mkGlobals (Some cache_client) (Some FrameworkRegistryManager_new)
          (Some (DocumentationCache_new (Some cache_client)))
          (Some (GitHubProvider_new None)) (Some WebsiteProvider_new))
       [Log INFO "Starting MCP Web Server";
        RedisConnect cache_client; RedisPing cache_client;
        Log INFO "Connected to Redis";
        NewFrameworkRegistryManager FrameworkRegistryManager_new;
        RegistryInitialize FrameworkRegistryManager_new;
        NewDocumentationCache (DocumentationCache_new (Some cache_client));
        NewGitHubProvider (GitHubProvider_new None);
        NewWebsiteProvider WebsiteProvider_new;
        Log INFO "MCP Web Server initialized successfully";
        Log INFO "serving";
        Log INFO "Shutting down MCP Web Server";
        RedisClose cache_client]).
Proof. vm_compute. reflexivity. Qed.

End McpWebServerFacts.

(* ===================================================================== *)
(** * Properties of the coordinator                                       *)
(* ===================================================================== *)

Module CoordinatorFacts.

Import Coordinator.

Section CoordinatorFacts.

Variable ttl_of : EntryKind -> Z.

(** ** The fetches in flight are the tickets *)





(** ** One key's view of a step *)
















(** ** The flight of one key *)




(** ** The failure path *)






End CoordinatorFacts.

(* ===================================================================== *)
(** * Runs of the coordinator                                             *)
(* ===================================================================== *)





(** The spec's scenario of the cold cache: one fetch, an entry with a
    time to live of 24 hours, and a second call within that time is a
    hit that starts no fetch. *)
Example cold_cache_run :
  let st := run day
              [Read 1 react_docs react_source false true 10 false;
               Ticket 1;
               Complete react_docs (inr ("# React", "github:facebook/react"))
                 20 false;
               Read 2 react_docs react_source false true 3600 false;
               Ticket 2]
              (init cold_store) in
  fetches_started react_docs st = 1 /\
  results st !! 2
  = Some (Entry (mkEntry "# React" "github:facebook/react" 20 (Some 86400%Z))) /\
  hits (stats st) = 1 /\ misses (stats st) = 1.
Proof. vm_compute. repeat split; reflexivity. Qed.

(** The expired entry is what the caller of a forced refresh receives
    when the fetch fails, and a caller on a cold cache receives the
    failure. *)
Example stale_served_run :
  let st := run day (forced_refresh
                     ++ [Complete react_docs (inl "rate limited") 100005 false])
              stale_state in
  results st !! 1 = Some (Entry old_react) /\
  store st = store stale_state.
Proof. vm_compute. split; reflexivity. Qed.

Example cold_failure_run :
  let st := run day (forced_refresh
                     ++ [Complete react_docs (inl "rate limited") 100005 false])
              (init cold_store) in
  results st !! 1 = Some (Failure "rate limited") /\
  store st = cold_store.
Proof. vm_compute. split; reflexivity. Qed.

(** A cache read that finds the entry expired evicts it from the local
    tier; when the refresh it triggers fails, the entry is served from
    the remote tier if that one still holds it. *)
Example stale_shared_run :
  let st := run day (triggered_refresh true
                     ++ [Complete react_docs (inl "rate limited") 100005 true])
              stale_shared_state in
  results st !! 1 = Some (Entry old_react) /\
  local_tier (store st) !! react_docs = None.
Proof. vm_compute. split; reflexivity. Qed.

End CoordinatorFacts.
